(** * Provider resolution of the GitLab code-review agent

    A shallow embedding of [src/agents/providers.py] (the four provider
    factories and [get_llm_model]) together with the part of
    [src/config/settings.py] it reads, and the properties of the
    resolution logic proved over that embedding. *)

From Stdlib Require Import String Ascii List Bool Arith Lia.
From stdpp Require Import base gmap strings.
Import ListNotations.
Local Open Scope string_scope.

(** ** Python values *)

(** Truthiness of an [Optional[str]]: [None] and the empty string are falsy. *)
Definition truthy (v : option string) : bool :=
  match v with
  | Some s => negb (String.eqb s "")
  | None => false
  end.

(** [a or b] on [Optional[str]] operands. *)
Definition py_or (a b : option string) : option string :=
  if truthy a then a else b.

(** [a or b] where the right operand is a plain [str]. *)
Definition py_or_str (a : option string) (b : string) : string :=
  match a with
  | Some s => if String.eqb s "" then b else s
  | None => b
  end.

(** [l.append(x)], as the new value of the list. *)
Definition append (l : list string) (x : string) : list string := (l ++ [x])%list.

(** [s.startswith(p)]. *)
Definition startswith (s p : string) : bool := String.prefix p s.

(** [os.getenv(name)] over the process environment. *)
Definition os_getenv (environ : gmap string string) (name : string) : option string :=
  environ !! name.

(** ** Settings: the fields of [Settings] that providers.py reads *)

Record Settings := mkSettings {
  ai_model : string;
  openai_api_key : option string;
  openai_model_name : string;
  openai_base_url : option string;
  anthropic_api_key : option string;
  anthropic_model_name : string;
  anthropic_base_url : option string;
  google_api_key : option string;
  gemini_model_name : string;
  google_base_url : option string;
  openrouter_api_key : option string;
  openrouter_model_name : string;
  openrouter_base_url : string
}.

(** The defaults of the [Field(default=...)] declarations. *)
Definition default_settings : Settings :=
  {| ai_model := "openai:gpt-4o";
     openai_api_key := None;
     openai_model_name := "gpt-4o";
     openai_base_url := None;
     anthropic_api_key := None;
     anthropic_model_name := "claude-3-5-sonnet-latest";
     anthropic_base_url := None;
     google_api_key := None;
     gemini_model_name := "gemini-2.5-pro";
     google_base_url := None;
     openrouter_api_key := None;
     openrouter_model_name := "openai/gpt-4o";
     openrouter_base_url := "https://openrouter.ai/api/v1" |}.

(** ** Objects of the SDKs

    The transport clients, the pydantic-ai providers and the model handles are
    kept as the constructor calls that build them. [FallbackModel] is given
    model strings only and no key: what it assembles from them it reads from
    the process environment itself, so the call is kept together with the
    environment it is made in. *)

Inductive Client :=
| AsyncOpenAI (api_key base_url : string)
| AsyncAnthropic (api_key base_url : string).

Inductive Provider :=
| OpenAIProvider_api_key (api_key : string)
| OpenAIProvider_client (openai_client : Client)
| AnthropicProvider_api_key (api_key : string)
| AnthropicProvider_client (anthropic_client : Client)
| GoogleProvider (api_key : string).

Inductive Model :=
| OpenAIModel (model_name : string) (provider : Provider)
| AnthropicModel (model_name : string) (provider : Provider)
| GoogleModel (model_name : string) (provider : Provider)
| FallbackModel (primary_model : string) (fallback_models : list string)
    (os_environ : gmap string string).

Inductive Obj :=
| OClient (c : Client)
| OProvider (p : Provider)
| OModel (m : Model).

(** ** Exceptions *)

(** Modelled from the spec: the declarations of [ConfigurationException] and
    [AIProviderException] (src/exceptions.py) are not among the sources. The
    spec (section 7) gives two error kinds carrying structured context (config
    key, provider, model, wrapped cause); the fields below are the keyword
    arguments used at the raise sites of providers.py. Both are ordinary
    exception classes, that is subclasses of [Exception], so an
    [except Exception] clause catches them. [ExternalError] stands for any
    exception raised by a collaborator (the settings loader or an SDK
    constructor); [UnboundLocalError] and [IndexError] are Python's own. *)
Inductive PyExn :=
| ConfigurationException (message config_key : string) (details : list (string * string))
| AIProviderException (message provider model : string) (original_error : PyExn)
| UnboundLocalError (name : string)
| IndexError
| ExternalError (what : string).

Definition is_ConfigurationException (e : PyExn) : bool :=
  match e with ConfigurationException _ _ _ => true | _ => false end.

Definition is_AIProviderException (e : PyExn) : bool :=
  match e with AIProviderException _ _ _ _ => true | _ => false end.

(** ** Effects *)

Inductive Level := INFO | WARNING | ERROR.

Inductive Event :=
| Log (level : Level) (msg : string)
| Construct (o : Obj).

(** The process state the module touches: the module-level [settings]
    singleton of settings.py, [os.environ], and the trace of logger calls and
    SDK constructor calls made so far (oldest first). *)
Record World := mkWorld {
  settings : option Settings;
  environ : gmap string string;
  events : list Event
}.

Inductive Outcome (A : Type) :=
| Return (a : A)
| Raise (e : PyExn).
Arguments Return {A} a.
Arguments Raise {A} e.

Definition Exec (A : Type) : Type := World -> World * Outcome A.

Definition ret {A} (a : A) : Exec A := fun w => (w, Return a).

Definition bind {A B} (m : Exec A) (k : A -> Exec B) : Exec B :=
  fun w => match m w with
           | (w', Return a) => k a w'
           | (w', Raise e) => (w', Raise e)
           end.

Definition raise {A} (e : PyExn) : Exec A := fun w => (w, Raise e).

Definition emit (ev : Event) : Exec unit :=
  fun w => ({| settings := settings w; environ := environ w;
               events := events w ++ [ev] |}, Return tt).

Definition getenv (name : string) : Exec (option string) :=
  fun w => (w, Return (os_getenv (environ w) name)).

Declare Scope exec_scope.
Delimit Scope exec_scope with exec.
Notation "'let*' x ':=' m 'in' k" := (bind m (fun x => k))
  (at level 10, x name, m at level 100, k at level 200) : exec_scope.
Notation "m '>>' k" := (bind m (fun _ => k))
  (at level 90, right associativity) : exec_scope.
Local Open Scope exec_scope.

Definition logger_info (msg : string) : Exec unit := emit (Log INFO msg).
Definition logger_warning (msg : string) : Exec unit := emit (Log WARNING msg).
Definition logger_error (msg : string) : Exec unit := emit (Log ERROR msg).

(** [when c m]: an [if c:] statement without [else]. *)
Definition when (c : bool) (m : Exec unit) : Exec unit :=
  if c then m else ret tt.

(** The value of a truthy [Optional[str]]; the default is never used on a
    truthy operand. *)
Definition str_of (v : option string) : string := default "" v.

(** ** The collaborators *)

(** What lies outside the repository's code: the pydantic loader run by
    [Settings()], the SDK constructors (each either builds the object or raises),
    and [str(e)] as used by the f-strings of the error logs. *)
Record Extern := mkExtern {
  Settings_new : gmap string string -> string + Settings;
  sdk_raises : Obj -> option string;
  exn_str : PyExn -> string
}.

Section Providers.

Variable ext : Extern.

(** [get_settings] of settings.py: the lazily initialised singleton. *)
Definition get_settings : Exec Settings :=
  fun w =>
    match settings w with
    | Some s => (w, Return s)
    | None =>
        match Settings_new ext (environ w) with
        | inr s => ({| settings := Some s; environ := environ w;
                       events := events w |}, Return s)
        | inl what => (w, Raise (ExternalError what))
        end
    end.

(** A call of an SDK constructor. *)
Definition construct {A} (o : Obj) (a : A) : Exec A :=
  emit (Construct o) >>
  match sdk_raises ext o with
  | Some what => raise (ExternalError what)
  | None => ret a
  end.

Definition new_client (c : Client) : Exec Client := construct (OClient c) c.
Definition new_provider (p : Provider) : Exec Provider := construct (OProvider p) p.
Definition new_model (m : Model) : Exec Model := construct (OModel m) m.

(** [try: settings = get_settings(); body  except Exception as e: handler].
    The handler reads the local [settings], which is unbound when
    [get_settings()] itself raised. *)
Definition try_settings {A} (body : Settings -> Exec A)
    (handler : option Settings -> PyExn -> Exec A) : Exec A :=
  fun w =>
    match get_settings w with
    | (w1, Raise e) => handler None e w1
    | (w1, Return s) =>
        match body s w1 with
        | (w2, Raise e) => handler (Some s) e w2
        | (w2, Return a) => (w2, Return a)
        end
    end.

(** Reading an attribute of the local [settings] inside the handler. *)
Definition local_settings {A} (loc : option Settings) (k : Settings -> Exec A) : Exec A :=
  match loc with
  | Some s => k s
  | None => raise (UnboundLocalError "settings")
  end.

Definition get_openai_model : Exec Model :=
  try_settings
    (fun settings =>
       let* env_base_url := getenv "OPENAI_BASE_URL" in
       let base_url := py_or (openai_base_url settings) env_base_url in
       when (truthy base_url)
         (logger_info ("Using custom OpenAI base URL: " ++ str_of base_url)) >>
       let* env_api_key := getenv "OPENAI_API_KEY" in
       let api_key := py_or (openai_api_key settings) env_api_key in
       if negb (truthy api_key) then
         raise (ConfigurationException "OpenAI API key not found" "openai_api_key"
                  [("model_name", openai_model_name settings)])
       else if truthy base_url then
         let* client := new_client (AsyncOpenAI (str_of api_key) (str_of base_url)) in
         let* provider := new_provider (OpenAIProvider_client client) in
         new_model (OpenAIModel (openai_model_name settings) provider)
       else
         let* provider := new_provider (OpenAIProvider_api_key (str_of api_key)) in
         new_model (OpenAIModel (openai_model_name settings) provider))
    (fun loc e =>
       logger_error ("Failed to initialize OpenAI model: " ++ exn_str ext e) >>
       local_settings loc (fun settings =>
         raise (AIProviderException "Failed to initialize OpenAI model" "openai"
                  (openai_model_name settings) e))).

Definition get_anthropic_model : Exec Model :=
  try_settings
    (fun settings =>
       let* env_base_url := getenv "ANTHROPIC_BASE_URL" in
       let base_url := py_or (anthropic_base_url settings) env_base_url in
       when (truthy base_url)
         (logger_info ("Using custom Anthropic base URL: " ++ str_of base_url)) >>
       let* env_api_key := getenv "ANTHROPIC_API_KEY" in
       let api_key := py_or (anthropic_api_key settings) env_api_key in
       if negb (truthy api_key) then
         raise (ConfigurationException "Anthropic API key not found" "anthropic_api_key"
                  [("model_name", anthropic_model_name settings)])
       else if truthy base_url then
         let* client := new_client (AsyncAnthropic (str_of api_key) (str_of base_url)) in
         let* provider := new_provider (AnthropicProvider_client client) in
         new_model (AnthropicModel (anthropic_model_name settings) provider)
       else
         let* provider := new_provider (AnthropicProvider_api_key (str_of api_key)) in
         new_model (AnthropicModel (anthropic_model_name settings) provider))
    (fun loc e =>
       logger_error ("Failed to initialize Anthropic model: " ++ exn_str ext e) >>
       local_settings loc (fun settings =>
         raise (AIProviderException "Failed to initialize Anthropic model" "anthropic"
                  (anthropic_model_name settings) e))).

Definition google_base_url_warning : string :=
  "Note: Google/Gemini API does not support custom base URLs in pydantic-ai. This setting will be ignored.".

Definition get_google_model : Exec Model :=
  try_settings
    (fun settings =>
       let* env_base_url := getenv "GOOGLE_BASE_URL" in
       let base_url := py_or (google_base_url settings) env_base_url in
       when (truthy base_url)
         (logger_info ("Using custom Google base URL: " ++ str_of base_url) >>
          logger_warning google_base_url_warning) >>
       let* env_google := getenv "GOOGLE_API_KEY" in
       let* env_gemini := getenv "GEMINI_API_KEY" in
       let api_key := py_or (py_or (google_api_key settings) env_google) env_gemini in
       if negb (truthy api_key) then
         raise (ConfigurationException "Google API key not found" "google_api_key"
                  [("model_name", gemini_model_name settings)])
       else
         let* provider := new_provider (GoogleProvider (str_of api_key)) in
         new_model (GoogleModel (gemini_model_name settings) provider))
    (fun loc e =>
       logger_error ("Failed to initialize Google model: " ++ exn_str ext e) >>
       local_settings loc (fun settings =>
         raise (AIProviderException "Failed to initialize Google model" "google"
                  (gemini_model_name settings) e))).

Definition get_openrouter_model : Exec Model :=
  try_settings
    (fun settings =>
       let base_url := openrouter_base_url settings in
       logger_info ("Using OpenRouter base URL: " ++ base_url) >>
       let* env_api_key := getenv "OPENROUTER_API_KEY" in
       let api_key := py_or (openrouter_api_key settings) env_api_key in
       if negb (truthy api_key) then
         raise (ConfigurationException "OpenRouter API key not found" "openrouter_api_key"
                  [("model_name", openrouter_model_name settings)])
       else
         let* client := new_client (AsyncOpenAI (str_of api_key) base_url) in
         let* provider := new_provider (OpenAIProvider_client client) in
         new_model (OpenAIModel (openrouter_model_name settings) provider))
    (fun loc e =>
       logger_error ("Failed to initialize OpenRouter model: " ++ exn_str ext e) >>
       local_settings loc (fun settings =>
         raise (AIProviderException "Failed to initialize OpenRouter model" "openrouter"
                  (openrouter_model_name settings) e))).

(** The [models] list of the fallback branch: one conditional [append] per
    provider, in source order. *)
Definition fallback_models_of (settings : Settings) (environ : gmap string string)
  : list string :=
  let models : list string := [] in
  let models :=
    if truthy (py_or (openai_api_key settings) (os_getenv environ "OPENAI_API_KEY"))
    then append models ("openai:" ++ openai_model_name settings) else models in
  let models :=
    if truthy (py_or (anthropic_api_key settings) (os_getenv environ "ANTHROPIC_API_KEY"))
    then append models ("anthropic:" ++ anthropic_model_name settings) else models in
  let models :=
    if truthy (py_or (py_or (google_api_key settings) (os_getenv environ "GOOGLE_API_KEY"))
                 (os_getenv environ "GEMINI_API_KEY"))
    then append models ("google-gla:" ++ gemini_model_name settings) else models in
  let models :=
    if truthy (py_or (openrouter_api_key settings) (os_getenv environ "OPENROUTER_API_KEY"))
    then append models ("openrouter:" ++ openrouter_model_name settings) else models in
  models.

Definition get_llm_model (model_name : option string) : Exec Model :=
  let* settings := get_settings in
  let model_name := py_or_str model_name (ai_model settings) in
  if startswith model_name "openai:" then get_openai_model
  else if startswith model_name "anthropic:" then get_anthropic_model
  else if startswith model_name "gemini:" then get_google_model
  else if startswith model_name "openrouter:" then get_openrouter_model
  else if String.eqb model_name "fallback" then
    fun w =>
      let models := fallback_models_of settings (environ w) in
      (match models with
       | [] =>
           raise (ConfigurationException "No LLM providers configured for fallback model"
                    "ai_model" [("requested_model", model_name)])
       | _ :: _ =>
           match models !! 0%nat with
           | None => raise IndexError
           | Some primary_model =>
               let fallback_models :=
                 if (1 <? length models)%nat then drop 1 models else [] in
               new_model (FallbackModel primary_model fallback_models (environ w))
           end
       end) w
  else
    logger_warning ("Unknown model name '" ++ model_name ++ "', defaulting to OpenAI") >>
    get_openai_model.

End Providers.

(** ** Vocabulary of the specification *)

(** The closed set of provider tags, in the fixed priority order. *)
Inductive ProviderTag := openai | anthropic | google | openrouter.

#[global] Instance ProviderTag_eq_dec : EqDecision ProviderTag.
Proof. solve_decision. Defined.

Definition priority_order : list ProviderTag := [openai; anthropic; google; openrouter].

(** The prefix that selects a provider in an identifier. *)
Definition prefix_of (tag : ProviderTag) : string :=
  match tag with
  | openai => "openai:"
  | anthropic => "anthropic:"
  | google => "gemini:"
  | openrouter => "openrouter:"
  end.

(** The tag a chain entry carries downstream. *)
Definition wire_tag (tag : ProviderTag) : string :=
  match tag with
  | openai => "openai"
  | anthropic => "anthropic"
  | google => "google-gla"
  | openrouter => "openrouter"
  end.

Definition configured_model_name (tag : ProviderTag) (s : Settings) : string :=
  match tag with
  | openai => openai_model_name s
  | anthropic => anthropic_model_name s
  | google => gemini_model_name s
  | openrouter => openrouter_model_name s
  end.

Definition configured_api_key (tag : ProviderTag) (s : Settings) : option string :=
  match tag with
  | openai => openai_api_key s
  | anthropic => anthropic_api_key s
  | google => google_api_key s
  | openrouter => openrouter_api_key s
  end.

(** The environment variables that may carry a provider's key, in the order
    in which they are tried. *)
Definition api_key_variables (tag : ProviderTag) : list string :=
  match tag with
  | openai => ["OPENAI_API_KEY"]
  | anthropic => ["ANTHROPIC_API_KEY"]
  | google => ["GOOGLE_API_KEY"; "GEMINI_API_KEY"]
  | openrouter => ["OPENROUTER_API_KEY"]
  end.

(** A provider has a usable credential when the configured value or one of
    its environment variables is non-empty. *)
Definition has_api_key (s : Settings) (env : gmap string string) (tag : ProviderTag) : bool :=
  truthy (configured_api_key tag s)
  || existsb (fun name => truthy (os_getenv env name)) (api_key_variables tag).

(** The chain as the specification words it: the providers with a credential,
    in priority order, each as "<wire-tag>:<model name>". *)
Definition spec_fallback_chain (s : Settings) (env : gmap string string) : list string :=
  map (fun tag => wire_tag tag ++ ":" ++ configured_model_name tag s)
      (filter (fun tag => has_api_key s env tag = true) priority_order).

(** The factory of a tag. *)
Definition factory (ext : Extern) (tag : ProviderTag) : Exec Model :=
  match tag with
  | openai => get_openai_model ext
  | anthropic => get_anthropic_model ext
  | google => get_google_model ext
  | openrouter => get_openrouter_model ext
  end.

(** An identifier that selects neither a provider nor the fallback chain. *)
Definition unrecognized (name : string) : Prop :=
  startswith name "openai:" = false /\ startswith name "anthropic:" = false /\
  startswith name "gemini:" = false /\ startswith name "openrouter:" = false /\
  name <> "fallback".

(** What a handle is bound to. A fallback handle is bound to no single model
    name, and this module passes it no key: whatever keys it holds the SDK has
    read from the environment. *)
Definition model_name_of (m : Model) : option string :=
  match m with
  | OpenAIModel n _ | AnthropicModel n _ | GoogleModel n _ => Some n
  | FallbackModel _ _ _ => None
  end.

Definition client_api_key (c : Client) : string :=
  match c with AsyncOpenAI k _ | AsyncAnthropic k _ => k end.

Definition provider_api_key (p : Provider) : string :=
  match p with
  | OpenAIProvider_api_key k | AnthropicProvider_api_key k | GoogleProvider k => k
  | OpenAIProvider_client c | AnthropicProvider_client c => client_api_key c
  end.

Definition model_api_key (m : Model) : option string :=
  match m with
  | OpenAIModel _ p | AnthropicModel _ p | GoogleModel _ p => Some (provider_api_key p)
  | FallbackModel _ _ _ => None
  end.

(** The handle kind each tag produces. *)
Definition handle_of_tag (tag : ProviderTag) (m : Model) : bool :=
  match tag, m with
  | openai, OpenAIModel _ _ | openrouter, OpenAIModel _ _
  | anthropic, AnthropicModel _ _ | google, GoogleModel _ _ => true
  | _, _ => false
  end.

(** The chain a fallback handle encodes. *)
Definition chain_of (m : Model) : list string :=
  match m with
  | FallbackModel primary rest _ => primary :: rest
  | _ => []
  end.

(** The settings a call of [get_settings] yields in a world, if any. *)
Definition loaded_settings (ext : Extern) (w : World) : option Settings :=
  match settings w with
  | Some s => Some s
  | None => match Settings_new ext (environ w) with
            | inr s => Some s
            | inl _ => None
            end
  end.

Definition with_settings (w : World) (s : Settings) : World :=
  {| settings := Some s; environ := environ w; events := events w |}.

Definition with_events (w : World) (evs : list Event) : World :=
  {| settings := settings w; environ := environ w; events := (events w ++ evs)%list |}.

(** The exception a factory raises for its missing key, and the wrapper its
    handler puts around any exception of the body. *)
Definition key_not_found (tag : ProviderTag) (s : Settings) : PyExn :=
  match tag with
  | openai =>
      ConfigurationException "OpenAI API key not found" "openai_api_key"
        [("model_name", openai_model_name s)]
  | anthropic =>
      ConfigurationException "Anthropic API key not found" "anthropic_api_key"
        [("model_name", anthropic_model_name s)]
  | google =>
      ConfigurationException "Google API key not found" "google_api_key"
        [("model_name", gemini_model_name s)]
  | openrouter =>
      ConfigurationException "OpenRouter API key not found" "openrouter_api_key"
        [("model_name", openrouter_model_name s)]
  end.

Definition init_failed (tag : ProviderTag) (s : Settings) (e : PyExn) : PyExn :=
  match tag with
  | openai =>
      AIProviderException "Failed to initialize OpenAI model" "openai"
        (openai_model_name s) e
  | anthropic =>
      AIProviderException "Failed to initialize Anthropic model" "anthropic"
        (anthropic_model_name s) e
  | google =>
      AIProviderException "Failed to initialize Google model" "google"
        (gemini_model_name s) e
  | openrouter =>
      AIProviderException "Failed to initialize OpenRouter model" "openrouter"
        (openrouter_model_name s) e
  end.

(** The path taken for an identifier that is not recognised: the warning,
    then the OpenAI factory. *)
Definition default_path (ext : Extern) (name : string) : Exec Model :=
  logger_warning ("Unknown model name '" ++ name ++ "', defaulting to OpenAI") >>
  get_openai_model ext.

(** The key and base-URL expressions of the factories. *)
Definition resolved_api_key (tag : ProviderTag) (s : Settings) (env : gmap string string)
  : option string :=
  match tag with
  | openai => py_or (openai_api_key s) (os_getenv env "OPENAI_API_KEY")
  | anthropic => py_or (anthropic_api_key s) (os_getenv env "ANTHROPIC_API_KEY")
  | google =>
      py_or (py_or (google_api_key s) (os_getenv env "GOOGLE_API_KEY"))
        (os_getenv env "GEMINI_API_KEY")
  | openrouter => py_or (openrouter_api_key s) (os_getenv env "OPENROUTER_API_KEY")
  end.

Definition resolved_base_url (tag : ProviderTag) (s : Settings) (env : gmap string string)
  : option string :=
  match tag with
  | openai => py_or (openai_base_url s) (os_getenv env "OPENAI_BASE_URL")
  | anthropic => py_or (anthropic_base_url s) (os_getenv env "ANTHROPIC_BASE_URL")
  | google => py_or (google_base_url s) (os_getenv env "GOOGLE_BASE_URL")
  | openrouter => Some (openrouter_base_url s)
  end.

(** The first non-empty value of a ranked list of sources. *)
Fixpoint first_non_empty (sources : list (option string)) : option string :=
  match sources with
  | [] => None
  | v :: rest => if truthy v then v else first_non_empty rest
  end.

(** The ranked sources of a provider's key: the configured value, then its
    environment variables. *)
Definition api_key_sources (tag : ProviderTag) (s : Settings) (env : gmap string string)
  : list (option string) :=
  configured_api_key tag s :: map (os_getenv env) (api_key_variables tag).

(** The handle a factory assembles once its key is present, and the logger
    and constructor calls it makes on the way. *)
Definition built_handle (tag : ProviderTag) (s : Settings) (env : gmap string string)
  : Model :=
  let k := str_of (resolved_api_key tag s env) in
  let b := resolved_base_url tag s env in
  match tag with
  | openai =>
      if truthy b
      then OpenAIModel (openai_model_name s) (OpenAIProvider_client (AsyncOpenAI k (str_of b)))
      else OpenAIModel (openai_model_name s) (OpenAIProvider_api_key k)
  | anthropic =>
      if truthy b
      then AnthropicModel (anthropic_model_name s)
             (AnthropicProvider_client (AsyncAnthropic k (str_of b)))
      else AnthropicModel (anthropic_model_name s) (AnthropicProvider_api_key k)
  | google => GoogleModel (gemini_model_name s) (GoogleProvider k)
  | openrouter =>
      OpenAIModel (openrouter_model_name s)
        (OpenAIProvider_client (AsyncOpenAI k (openrouter_base_url s)))
  end.

Definition provider_of (m : Model) : list Provider :=
  match m with
  | OpenAIModel _ p | AnthropicModel _ p | GoogleModel _ p => [p]
  | FallbackModel _ _ _ => []
  end.

Definition client_of (p : Provider) : list Client :=
  match p with
  | OpenAIProvider_client c | AnthropicProvider_client c => [c]
  | _ => []
  end.

(** Constructor calls in the order client, provider, model. *)
Definition constructions (m : Model) : list Event :=
  (map (fun c => Construct (OClient c)) (concat (map client_of (provider_of m)))
   ++ map (fun p => Construct (OProvider p)) (provider_of m)
   ++ [Construct (OModel m)])%list.

Definition base_url_logs (tag : ProviderTag) (s : Settings) (env : gmap string string)
  : list Event :=
  let b := resolved_base_url tag s env in
  match tag with
  | openai =>
      if truthy b then [Log INFO ("Using custom OpenAI base URL: " ++ str_of b)] else []
  | anthropic =>
      if truthy b then [Log INFO ("Using custom Anthropic base URL: " ++ str_of b)] else []
  | google =>
      if truthy b
      then [Log INFO ("Using custom Google base URL: " ++ str_of b);
            Log WARNING google_base_url_warning]
      else []
  | openrouter => [Log INFO ("Using OpenRouter base URL: " ++ str_of b)]
  end.

(** A run that returns a handle holding the key [k]. *)
Definition uses_key (r : World * Outcome Model) (k : string) : Prop :=
  exists m, snd r = Return m /\ model_api_key m = Some k.

(** Two worlds with the same configuration: [get_settings] yields the same
    settings in both, and the environment is the same. The trace may differ. *)
Definition same_config (ext : Extern) (w w' : World) : Prop :=
  loaded_settings ext w = loaded_settings ext w' /\ environ w = environ w'.

(** A computation that leaves the configuration as it found it and whose
    outcome depends on the world through the configuration only. *)
Definition Respects {A} (ext : Extern) (m : Exec A) : Prop :=
  (forall w, same_config ext (fst (m w)) w) /\
  (forall w w', same_config ext w w' -> snd (m w) = snd (m w')).

(** The objects the four factories construct: everything but a fallback
    handle. *)
Definition factory_object (o : Obj) : bool :=
  match o with
  | OModel (FallbackModel _ _ _) => false
  | _ => true
  end.

(** An SDK whose constructors succeed on the objects the factories give them;
    nothing is asked of [FallbackModel]. *)
Definition sdk_succeeds (ext : Extern) : Prop :=
  forall o, factory_object o = true -> sdk_raises ext o = None.

(** Sample collaborators and worlds for closed instances. *)
Definition ext_ok : Extern :=
  {| Settings_new := fun _ => inr default_settings;
     sdk_raises := fun _ => None;
     exn_str := fun _ => "error" |}.

Definition world_of (s : Settings) (env : gmap string string) : World :=
  {| settings := Some s; environ := env; events := [] |}.

(** Settings that select Anthropic by default and carry its key. *)
Definition anthropic_settings : Settings :=
  {| ai_model := "anthropic:claude-3-5-sonnet-latest";
     openai_api_key := None;
     openai_model_name := "gpt-4o";
     openai_base_url := None;
     anthropic_api_key := Some "sk-ant-test";
     anthropic_model_name := "claude-3-5-sonnet-latest";
     anthropic_base_url := None;
     google_api_key := None;
     gemini_model_name := "gemini-2.5-pro";
     google_base_url := None;
     openrouter_api_key := None;
     openrouter_model_name := "openai/gpt-4o";
     openrouter_base_url := "https://openrouter.ai/api/v1" |}.

(** ** Runs of a factory in detail *)

(** The message of a factory's error log and of its [AIProviderException]. *)
Definition init_message (tag : ProviderTag) : string :=
  match tag with
  | openai => "Failed to initialize OpenAI model"
  | anthropic => "Failed to initialize Anthropic model"
  | google => "Failed to initialize Google model"
  | openrouter => "Failed to initialize OpenRouter model"
  end.

(** The record written by [logger.error(f"Failed to initialize ... model: {e}")]. *)
Definition error_log (ext : Extern) (tag : ProviderTag) (e : PyExn) : Event :=
  Log ERROR (init_message tag ++ ": " ++ exn_str ext e).

(** The objects a handle is assembled from, in construction order. *)
Definition objects_of (m : Model) : list Obj :=
  (map OClient (concat (map client_of (provider_of m)))
   ++ map OProvider (provider_of m) ++ [OModel m])%list.

(** Constructor calls made one after the other until one raises: the calls
    made, and the message of the failure if there is one. *)
Fixpoint run_constructions (ext : Extern) (objs : list Obj) : list Event * option string :=
  match objs with
  | [] => ([], None)
  | o :: rest =>
      match sdk_raises ext o with
      | Some what => ([Construct o], Some what)
      | None =>
          let (evs, failure) := run_constructions ext rest in
          (Construct o :: evs, failure)
      end
  end.

(** The logger records of a trace. *)
Definition is_log (ev : Event) : bool :=
  match ev with Log _ _ => true | Construct _ => false end.

Definition logs (evs : list Event) : list Event := List.filter is_log evs.

(** The environment variables a factory reads. *)
Definition variables_read (tag : ProviderTag) : list string :=
  match tag with
  | openai => ["OPENAI_BASE_URL"; "OPENAI_API_KEY"]
  | anthropic => ["ANTHROPIC_BASE_URL"; "ANTHROPIC_API_KEY"]
  | google => ["GOOGLE_BASE_URL"; "GOOGLE_API_KEY"; "GEMINI_API_KEY"]
  | openrouter => ["OPENROUTER_API_KEY"]
  end.

(** The entry of a provider in the fallback chain. *)
Definition chain_entry (tag : ProviderTag) (s : Settings) : string :=
  wire_tag tag ++ ":" ++ configured_model_name tag s.

(** Collaborators whose settings loader raises. *)
Definition ext_unloadable : Extern :=
  {| Settings_new := fun _ => inl "validation error";
     sdk_raises := fun _ => None;
     exn_str := fun _ => "error" |}.

(** Collaborators whose transport clients cannot be built. *)
Definition ext_no_client : Extern :=
  {| Settings_new := fun _ => inr default_settings;
     sdk_raises := fun o => match o with OClient _ => Some "invalid URL" | _ => None end;
     exn_str := fun _ => "error" |}.

(** The variables in which an SDK that is handed a model string and no key
    can look for the key of that entry's provider. *)
Definition entry_key_variables (entry : string) : list string :=
  if startswith entry "openai:" then ["OPENAI_API_KEY"]
  else if startswith entry "anthropic:" then ["ANTHROPIC_API_KEY"]
  else if startswith entry "google-gla:" then ["GOOGLE_API_KEY"; "GEMINI_API_KEY"]
  else if startswith entry "openrouter:" then ["OPENROUTER_API_KEY"]
  else [].

(** Collaborators whose [FallbackModel] constructor resolves every entry of
    the chain through the environment and raises when an entry has no key
    there. *)
Definition ext_env_keys : Extern :=
  {| Settings_new := fun _ => inr default_settings;
     sdk_raises := fun o =>
       match o with
       | OModel (FallbackModel primary rest env) =>
           if forallb (fun entry =>
                         existsb (fun name => truthy (os_getenv env name))
                           (entry_key_variables entry))
                (primary :: rest)
           then None
           else Some "API key environment variable not set"
       | _ => None
       end;
     exn_str := fun _ => "error" |}.

(** Collaborators whose [FallbackModel] constructor raises. *)
Definition ext_no_fallback : Extern :=
  {| Settings_new := fun _ => inr default_settings;
     sdk_raises := fun o => match o with
                            | OModel (FallbackModel _ _ _) => Some "unknown model"
                            | _ => None
                            end;
     exn_str := fun _ => "error" |}.

(** ** Validators of settings.py *)

Inductive Validated (A : Type) :=
| Valid (a : A)
| ValueError (msg : string).
Arguments Valid {A} a.
Arguments ValueError {A} msg.

(** [s.rstrip(c)] for a single character [c]. *)
Fixpoint rstrip (c : ascii) (s : string) : string :=
  match s with
  | EmptyString => EmptyString
  | String a rest =>
      match rstrip c rest with
      | EmptyString => if Ascii.eqb a c then EmptyString else String a EmptyString
      | r => String a r
      end
  end.

(** [c * n]. *)
Fixpoint repeat_char (c : ascii) (n : nat) : string :=
  match n with
  | O => EmptyString
  | S n' => String c (repeat_char c n')
  end.

(** [s.endswith(c)] for a single character [c]. *)
Fixpoint ends_with_char (c : ascii) (s : string) : bool :=
  match s with
  | EmptyString => false
  | String a EmptyString => Ascii.eqb a c
  | String _ rest => ends_with_char c rest
  end.

Definition validate_gitlab_url (v : string) : Validated string :=
  if negb (startswith v "http://" || startswith v "https://") then
    ValueError "GitLab URL must include protocol (http:// or https://)"
  else
    Valid (rstrip "/" v).

Definition validate_origins (environ : gmap string string) (v : list string)
  : list string :=
  match v with
  | [] =>
      if negb (String.eqb (default "development" (os_getenv environ "ENVIRONMENT"))
                 "production")
      then ["http://localhost:3000"; "http://localhost:8000"]
      else []
  | _ :: _ => v
  end.

(** ** Basic facts *)

Lemma truthy_py_or a b : truthy (py_or a b) = truthy a || truthy b.
Proof. unfold py_or. destruct (truthy a) eqn:E; simpl; auto. Qed.

Lemma prefix_split p : forall s, String.prefix p s = true -> exists r, s = p ++ r.
Proof.
  induction p as [| c p IH]; intros s H.
  - exists s. reflexivity.
  - destruct s as [| d s]; simpl in H; [discriminate |].
    destruct (ascii_dec c d) as [-> | _]; [| discriminate].
    destruct (IH _ H) as [r ->]. exists r. reflexivity.
Qed.

Lemma startswith_split s p : startswith s p = true -> exists r, s = p ++ r.
Proof. apply prefix_split. Qed.

Lemma py_or_str_prefixed tag r dflt :
  py_or_str (Some (prefix_of tag ++ r)) dflt = prefix_of tag ++ r.
Proof. destruct tag; reflexivity. Qed.

Lemma with_settings_id w s : settings w = Some s -> with_settings w s = w.
Proof. destruct w; simpl. intros ->. reflexivity. Qed.

Lemma get_settings_loaded ext w s :
  loaded_settings ext w = Some s ->
  get_settings ext w = (with_settings w s, Return s).
Proof.
  unfold loaded_settings, get_settings. intros H.
  destruct (settings w) eqn:E.
  - inversion H; subst. rewrite with_settings_id; auto.
  - destruct (Settings_new ext (environ w)); inversion H; subst. reflexivity.
Qed.

Lemma get_settings_with ext w s :
  get_settings ext (with_settings w s) = (with_settings w s, Return s).
Proof. reflexivity. Qed.

(** Unfolding of the monadic operations of a factory, once the settings are
    known to load. *)
Ltac run_exec :=
  unfold new_client, new_provider, new_model, construct, local_settings, when,
    logger_info, logger_warning, logger_error, getenv, emit, bind, ret, raise;
  simpl.

Ltac run_factory Hs :=
  unfold factory, get_openai_model, get_anthropic_model, get_google_model,
    get_openrouter_model, try_settings;
  rewrite (get_settings_loaded _ _ _ Hs); run_exec.

Lemma factory_with_settings ext tag w s :
  loaded_settings ext w = Some s ->
  factory ext tag (with_settings w s) = factory ext tag w.
Proof.
  intros Hs. destruct tag; simpl;
    unfold get_openai_model, get_anthropic_model, get_google_model,
      get_openrouter_model, try_settings;
    rewrite (get_settings_loaded _ _ _ Hs), get_settings_with; reflexivity.
Qed.

(** The key expression of each factory is non-empty exactly when the provider
    has a usable credential. *)
Lemma has_api_key_openai s env :
  truthy (py_or (openai_api_key s) (os_getenv env "OPENAI_API_KEY")) =
  has_api_key s env openai.
Proof. rewrite truthy_py_or. unfold has_api_key. simpl. rewrite orb_false_r. reflexivity. Qed.

Lemma has_api_key_anthropic s env :
  truthy (py_or (anthropic_api_key s) (os_getenv env "ANTHROPIC_API_KEY")) =
  has_api_key s env anthropic.
Proof. rewrite truthy_py_or. unfold has_api_key. simpl. rewrite orb_false_r. reflexivity. Qed.

Lemma has_api_key_google s env :
  truthy (py_or (py_or (google_api_key s) (os_getenv env "GOOGLE_API_KEY"))
            (os_getenv env "GEMINI_API_KEY")) =
  has_api_key s env google.
Proof.
  rewrite !truthy_py_or. unfold has_api_key. simpl.
  rewrite orb_false_r, orb_assoc. reflexivity.
Qed.

Lemma has_api_key_openrouter s env :
  truthy (py_or (openrouter_api_key s) (os_getenv env "OPENROUTER_API_KEY")) =
  has_api_key s env openrouter.
Proof. rewrite truthy_py_or. unfold has_api_key. simpl. rewrite orb_false_r. reflexivity. Qed.

Lemma factory_no_key ext tag w s :
  loaded_settings ext w = Some s ->
  has_api_key s (environ w) tag = false ->
  snd (factory ext tag w) = Raise (init_failed tag s (key_not_found tag s)).
Proof.
  intros Hs Hk. destruct tag.
  - rewrite <- has_api_key_openai in Hk. run_factory Hs.
    destruct (truthy (py_or (openai_base_url s) _)); simpl; rewrite Hk; reflexivity.
  - rewrite <- has_api_key_anthropic in Hk. run_factory Hs.
    destruct (truthy (py_or (anthropic_base_url s) _)); simpl; rewrite Hk; reflexivity.
  - rewrite <- has_api_key_google in Hk. run_factory Hs.
    destruct (truthy (py_or (google_base_url s) _)); simpl; rewrite Hk; reflexivity.
  - rewrite <- has_api_key_openrouter in Hk. run_factory Hs.
    rewrite Hk. reflexivity.
Qed.

(** Dispatch of [get_llm_model] on a prefixed identifier. *)
Lemma get_llm_model_prefixed ext tag model_name w s :
  loaded_settings ext w = Some s ->
  startswith (py_or_str model_name (ai_model s)) (prefix_of tag) = true ->
  get_llm_model ext model_name w = factory ext tag w.
Proof.
  intros Hs Hp. rewrite <- (factory_with_settings ext tag w s Hs).
  unfold get_llm_model, bind. rewrite (get_settings_loaded _ _ _ Hs).
  destruct (startswith_split _ _ Hp) as [r ->].
  destruct tag; destruct r; reflexivity.
Qed.

Lemma tail_by_slice (p : string) (rest : list string) :
  (if (1 <? length (p :: rest))%nat then drop 1 (p :: rest) else []) = rest.
Proof. destruct rest; reflexivity. Qed.

(** Dispatch on the literal "fallback". *)
Lemma get_llm_model_fallback ext model_name w s :
  loaded_settings ext w = Some s ->
  py_or_str model_name (ai_model s) = "fallback" ->
  get_llm_model ext model_name w =
  match fallback_models_of s (environ w) with
  | [] =>
      (with_settings w s,
       Raise (ConfigurationException "No LLM providers configured for fallback model"
                "ai_model" [("requested_model", "fallback")]))
  | primary :: rest =>
      new_model ext (FallbackModel primary rest (environ w)) (with_settings w s)
  end.
Proof.
  intros Hs Hn. unfold get_llm_model, bind.
  rewrite (get_settings_loaded _ _ _ Hs), Hn. simpl.
  destruct (fallback_models_of s (environ w)) as [| p rest] eqn:E; [reflexivity |].
  simpl lookup. rewrite tail_by_slice. reflexivity.
Qed.

(** Dispatch on anything else. *)
Lemma get_llm_model_unrecognized ext model_name w s :
  loaded_settings ext w = Some s ->
  unrecognized (py_or_str model_name (ai_model s)) ->
  get_llm_model ext model_name w =
  default_path ext (py_or_str model_name (ai_model s)) (with_settings w s).
Proof.
  intros Hs (H1 & H2 & H3 & H4 & H5). unfold get_llm_model, bind.
  rewrite (get_settings_loaded _ _ _ Hs). cbv zeta.
  rewrite H1, H2, H3, H4.
  destruct (String.eqb_spec (py_or_str model_name (ai_model s)) "fallback") as [E | _];
    [contradiction | reflexivity].
Qed.

Lemma new_model_outcome ext m w :
  snd (new_model ext m w) =
  match sdk_raises ext (OModel m) with
  | None => Return m
  | Some what => Raise (ExternalError what)
  end.
Proof. run_exec. destruct (sdk_raises ext (OModel m)); reflexivity. Qed.

Lemma fallback_models_refine s env :
  fallback_models_of s env = spec_fallback_chain s env.
Proof.
  unfold fallback_models_of, spec_fallback_chain, priority_order.
  rewrite has_api_key_openai, has_api_key_anthropic, has_api_key_google,
    has_api_key_openrouter.
  destruct (has_api_key s env openai) eqn:E1, (has_api_key s env anthropic) eqn:E2,
    (has_api_key s env google) eqn:E3, (has_api_key s env openrouter) eqn:E4;
    cbn; rewrite ?E1, ?E2, ?E3, ?E4; reflexivity.
Qed.


(** ** The factories once the key is present *)

Lemma resolved_api_key_truthy tag s env :
  truthy (resolved_api_key tag s env) = has_api_key s env tag.
Proof.
  destruct tag; simpl.
  - apply has_api_key_openai.
  - apply has_api_key_anthropic.
  - apply has_api_key_google.
  - apply has_api_key_openrouter.
Qed.

Lemma resolved_api_key_first tag s env k :
  first_non_empty (api_key_sources tag s env) = Some k ->
  resolved_api_key tag s env = Some k /\ k <> "".
Proof.
  assert (Hne : forall v, truthy v = true -> v = Some k -> k <> "").
  { intros v Ht ->. simpl in Ht. intros ->. discriminate. }
  destruct tag; simpl; unfold py_or;
    repeat match goal with
           | |- context [truthy ?v] => destruct (truthy v) eqn:?; simpl
           end; intros H; try discriminate; split; eauto.
Qed.

Lemma factory_success ext tag w s :
  sdk_succeeds ext ->
  loaded_settings ext w = Some s ->
  has_api_key s (environ w) tag = true ->
  factory ext tag w =
  (with_events (with_settings w s)
     (base_url_logs tag s (environ w) ++ constructions (built_handle tag s (environ w))),
   Return (built_handle tag s (environ w))).
Proof.
  intros Hsdk Hs Hk. rewrite <- resolved_api_key_truthy in Hk.
  unfold built_handle, base_url_logs, constructions.
  destruct tag; simpl in Hk |- *; run_factory Hs; rewrite ?Hk; simpl.
  - destruct (truthy (py_or (openai_base_url s) _)) eqn:Hb; simpl;
      rewrite ?Hk; simpl; rewrite ?Hsdk; simpl; rewrite ?Hsdk; simpl;
      unfold with_events; simpl; rewrite <- ?app_assoc; reflexivity.
  - destruct (truthy (py_or (anthropic_base_url s) _)) eqn:Hb; simpl;
      rewrite ?Hk; simpl; rewrite ?Hsdk; simpl; rewrite ?Hsdk; simpl;
      unfold with_events; simpl; rewrite <- ?app_assoc; reflexivity.
  - destruct (truthy (py_or (google_base_url s) _)) eqn:Hb; simpl;
      rewrite ?Hk; simpl; rewrite ?Hsdk; simpl; rewrite ?Hsdk; simpl;
      unfold with_events; simpl; rewrite <- ?app_assoc; reflexivity.
  - rewrite ?Hsdk; simpl; rewrite ?Hsdk; simpl;
      unfold with_events; simpl; rewrite <- ?app_assoc; reflexivity.
Qed.

(** ** Resolution reads the configuration and nothing else *)

Lemma same_config_refl ext w : same_config ext w w.
Proof. split; reflexivity. Qed.

Lemma same_config_sym ext w w' : same_config ext w w' -> same_config ext w' w.
Proof. intros [H1 H2]. split; symmetry; assumption. Qed.

Lemma same_config_trans ext w1 w2 w3 :
  same_config ext w1 w2 -> same_config ext w2 w3 -> same_config ext w1 w3.
Proof. intros [H1 H2] [H3 H4]. split; congruence. Qed.

Lemma respects_ret {A} ext (a : A) : Respects ext (ret a).
Proof. split; intros; [apply same_config_refl | reflexivity]. Qed.

Lemma respects_raise {A} ext e : Respects ext (@raise A e).
Proof. split; intros; [apply same_config_refl | reflexivity]. Qed.

Lemma respects_emit ext ev : Respects ext (emit ev).
Proof. split; intros; [split; reflexivity | reflexivity]. Qed.

Lemma respects_getenv ext name : Respects ext (getenv name).
Proof.
  split; [intros; apply same_config_refl |].
  intros w w' [_ He]. unfold getenv. simpl. rewrite He. reflexivity.
Qed.

Lemma respects_get_settings ext : Respects ext (get_settings ext).
Proof.
  split.
  - intros w. unfold get_settings, same_config, loaded_settings.
    destruct (settings w) eqn:E; simpl; [rewrite E; auto |].
    destruct (Settings_new ext (environ w)) eqn:E'; simpl; rewrite ?E, ?E'; auto.
  - intros w w' [Hl He]. unfold get_settings, loaded_settings in *.
    rewrite <- He in *.
    destruct (settings w), (settings w'), (Settings_new ext (environ w));
      simpl; congruence.
Qed.

Lemma respects_bind {A B} ext (m : Exec A) (k : A -> Exec B) :
  Respects ext m -> (forall a, Respects ext (k a)) -> Respects ext (bind m k).
Proof.
  intros [Hm1 Hm2] Hk. split.
  - intros w. unfold bind. specialize (Hm1 w).
    destruct (m w) as [w1 [a | e]]; simpl in *; [| exact Hm1].
    eapply same_config_trans; [apply (Hk a) | exact Hm1].
  - intros w w' Hw. unfold bind.
    pose proof (Hm1 w) as H1. pose proof (Hm1 w') as H1'.
    pose proof (Hm2 w w' Hw) as H2.
    destruct (m w) as [w1 [a | e]], (m w') as [w1' [a' | e']]; simpl in *;
      try congruence.
    inversion H2; subst a'. apply (Hk a).
    eapply same_config_trans; [exact H1 |].
    eapply same_config_trans; [exact Hw |]. apply same_config_sym. exact H1'.
Qed.

Lemma respects_when ext c m : Respects ext m -> Respects ext (when c m).
Proof. destruct c; simpl; [auto | intros _; apply respects_ret]. Qed.

Lemma respects_construct {A} ext o (a : A) : Respects ext (construct ext o a).
Proof.
  unfold construct. apply respects_bind; [apply respects_emit |].
  intros _. destruct (sdk_raises ext o); [apply respects_raise | apply respects_ret].
Qed.

Lemma respects_local_settings {A} ext loc (k : Settings -> Exec A) :
  (forall s, Respects ext (k s)) -> Respects ext (local_settings loc k).
Proof. intros Hk. destruct loc; simpl; [apply Hk | apply respects_raise]. Qed.

Lemma respects_try_settings {A} ext (body : Settings -> Exec A) handler :
  (forall s, Respects ext (body s)) ->
  (forall loc e, Respects ext (handler loc e)) ->
  Respects ext (try_settings ext body handler).
Proof.
  intros Hb Hh. destruct (respects_get_settings ext) as [Hg1 Hg2]. split.
  - intros w. unfold try_settings. specialize (Hg1 w).
    destruct (get_settings ext w) as [w1 [s | e]]; simpl in *.
    + pose proof (proj1 (Hb s) w1) as H1.
      destruct (body s w1) as [w2 [a | e]]; simpl in *.
      * eapply same_config_trans; eassumption.
      * eapply same_config_trans; [apply (Hh (Some s) e) |].
        eapply same_config_trans; eassumption.
    + eapply same_config_trans; [apply (Hh None e) | exact Hg1].
  - intros w w' Hw. unfold try_settings.
    pose proof (Hg1 w) as H1. pose proof (Hg1 w') as H1'.
    pose proof (Hg2 w w' Hw) as H2.
    assert (Hw1 : same_config ext (fst (get_settings ext w)) (fst (get_settings ext w'))).
    { eapply same_config_trans; [exact H1 |].
      eapply same_config_trans; [exact Hw |]. apply same_config_sym. exact H1'. }
    destruct (get_settings ext w) as [w1 [s | e]],
             (get_settings ext w') as [w1' [s' | e']]; simpl in *; try congruence.
    + inversion H2; subst s'.
      pose proof (proj1 (Hb s) w1) as B1. pose proof (proj1 (Hb s) w1') as B1'.
      pose proof (proj2 (Hb s) w1 w1' Hw1) as B2.
      destruct (body s w1) as [w2 [a | e]], (body s w1') as [w2' [a' | e']];
        simpl in *; try congruence.
      inversion B2; subst e'. apply (Hh (Some s) e).
      eapply same_config_trans; [exact B1 |].
      eapply same_config_trans; [exact Hw1 |]. apply same_config_sym. exact B1'.
    + inversion H2; subst e'. apply (Hh None e). exact Hw1.
Qed.

Ltac respects :=
  repeat first
    [ apply respects_try_settings; intros
    | apply respects_construct
    | apply respects_bind; intros
    | apply respects_when
    | apply respects_local_settings; intros
    | apply respects_getenv
    | apply respects_emit
    | apply respects_raise
    | apply respects_ret
    | match goal with |- Respects _ (if ?c then _ else _) => destruct c end ].

Lemma respects_factory ext tag : Respects ext (factory ext tag).
Proof.
  destruct tag; simpl;
    unfold get_openai_model, get_anthropic_model, get_google_model,
      get_openrouter_model, new_client, new_provider, new_model,
      logger_info, logger_warning, logger_error;
    respects.
Qed.

Lemma respects_get_llm_model ext model_name : Respects ext (get_llm_model ext model_name).
Proof.
  unfold get_llm_model. apply respects_bind; [apply respects_get_settings |].
  intros s.
  repeat match goal with
         | |- Respects _ (if ?c then _ else _) => destruct c
         end;
    try (apply (respects_factory ext openai));
    try (apply (respects_factory ext anthropic));
    try (apply (respects_factory ext google));
    try (apply (respects_factory ext openrouter)).
  - split.
    + intros w. destruct (fallback_models_of s (environ w)) as [| p rest];
        [apply same_config_refl |].
      simpl lookup. cbv iota beta. apply (respects_construct ext).
    + intros w w' Hw. destruct Hw as [Hl He]. rewrite <- He.
      destruct (fallback_models_of s (environ w)) as [| p rest]; [reflexivity |].
      simpl lookup. cbv iota beta. apply (respects_construct ext). split; assumption.
  - apply respects_bind; [apply respects_emit |].
    intros _. apply (respects_factory ext openai).
Qed.

(** ** The factories and a missing key *)

(** C1: when the resolved API key is empty, each of the four factories raises
    [AIProviderException]: the [ConfigurationException] of the key check is
    raised inside the [try] block and reaches the caller only as the wrapped
    [original_error]. *)
Theorem factory_missing_key_is_wrapped ext w s :
  loaded_settings ext w = Some s ->
  (has_api_key s (environ w) openai = false ->
   snd (get_openai_model ext w) =
   Raise (AIProviderException "Failed to initialize OpenAI model" "openai"
            (openai_model_name s)
            (ConfigurationException "OpenAI API key not found" "openai_api_key"
               [("model_name", openai_model_name s)]))) /\
  (has_api_key s (environ w) anthropic = false ->
   snd (get_anthropic_model ext w) =
   Raise (AIProviderException "Failed to initialize Anthropic model" "anthropic"
            (anthropic_model_name s)
            (ConfigurationException "Anthropic API key not found" "anthropic_api_key"
               [("model_name", anthropic_model_name s)]))) /\
  (has_api_key s (environ w) google = false ->
   snd (get_google_model ext w) =
   Raise (AIProviderException "Failed to initialize Google model" "google"
            (gemini_model_name s)
            (ConfigurationException "Google API key not found" "google_api_key"
               [("model_name", gemini_model_name s)]))) /\
  (has_api_key s (environ w) openrouter = false ->
   snd (get_openrouter_model ext w) =
   Raise (AIProviderException "Failed to initialize OpenRouter model" "openrouter"
            (openrouter_model_name s)
            (ConfigurationException "OpenRouter API key not found" "openrouter_api_key"
               [("model_name", openrouter_model_name s)]))).
Proof.
  intros Hs. repeat split; intros Hk.
  - exact (factory_no_key ext openai w s Hs Hk).
  - exact (factory_no_key ext anthropic w s Hs Hk).
  - exact (factory_no_key ext google w s Hs Hk).
  - exact (factory_no_key ext openrouter w s Hs Hk).
Qed.

Lemma factory_missing_key_is_wrapped_witness :
  loaded_settings ext_ok (world_of default_settings ∅) = Some default_settings /\
  has_api_key default_settings ∅ openai = false /\
  snd (get_openai_model ext_ok (world_of default_settings ∅)) =
  Raise (AIProviderException "Failed to initialize OpenAI model" "openai" "gpt-4o"
           (ConfigurationException "OpenAI API key not found" "openai_api_key"
              [("model_name", "gpt-4o")])).
Proof.
  split; [reflexivity |]. split; [reflexivity |].
  apply (factory_missing_key_is_wrapped ext_ok (world_of default_settings ∅)
           default_settings); reflexivity.
Defined.

(** C5: for each of the four provider prefixes, when neither the configuration
    field nor the provider's environment variables hold a key, [get_llm_model]
    raises, and what it raises is a [ConfigurationException] or an
    [AIProviderException]; it returns no handle. *)
Theorem no_credential_resolution_fails ext tag model_name w s :
  loaded_settings ext w = Some s ->
  startswith (py_or_str model_name (ai_model s)) (prefix_of tag) = true ->
  has_api_key s (environ w) tag = false ->
  exists e, snd (get_llm_model ext model_name w) = Raise e /\
            is_ConfigurationException e || is_AIProviderException e = true.
Proof.
  intros Hs Hp Hk. rewrite (get_llm_model_prefixed ext tag model_name w s Hs Hp).
  rewrite (factory_no_key ext tag w s Hs Hk).
  eexists. split; [reflexivity |]. destruct tag; reflexivity.
Qed.

Lemma no_credential_resolution_fails_witness :
  exists e,
    snd (get_llm_model ext_ok (Some "gemini:gemini-pro") (world_of default_settings ∅))
    = Raise e /\
    is_ConfigurationException e || is_AIProviderException e = true.
Proof.
  apply (no_credential_resolution_fails ext_ok google (Some "gemini:gemini-pro")
           (world_of default_settings ∅) default_settings); reflexivity.
Defined.

(** ** The fallback chain *)

(** C2: the chain built for "fallback" is, as the claim says, the list of
    providers with a non-empty key, in the order openai, anthropic, google,
    openrouter, each as "<wire-tag>:<configured model name>" with "google-gla"
    for Google; with all four keys present it has the four entries in that
    order and with a single key it has one entry. Where the code departs from
    the claim is "not an error": the chain is handed to [FallbackModel] as
    strings, in the environment of the call, and no key is passed with it. The
    outcome of the call is the outcome of that constructor, which can read the
    environment but not the settings; when it raises, as it does for a key
    held in the settings only, the exception reaches the caller. *)
Theorem fallback_chain_is_priority_filter ext model_name w s :
  loaded_settings ext w = Some s ->
  py_or_str model_name (ai_model s) = "fallback" ->
  fallback_models_of s (environ w) = spec_fallback_chain s (environ w) /\
  (forall primary rest,
     fallback_models_of s (environ w) = primary :: rest ->
     snd (get_llm_model ext model_name w) =
     match sdk_raises ext (OModel (FallbackModel primary rest (environ w))) with
     | None => Return (FallbackModel primary rest (environ w))
     | Some what => Raise (ExternalError what)
     end) /\
  ((forall tag, has_api_key s (environ w) tag = true) ->
   fallback_models_of s (environ w) =
   ["openai:" ++ openai_model_name s; "anthropic:" ++ anthropic_model_name s;
    "google-gla:" ++ gemini_model_name s; "openrouter:" ++ openrouter_model_name s]) /\
  (forall tag,
     (forall t, has_api_key s (environ w) t = true <-> t = tag) ->
     fallback_models_of s (environ w) =
     [wire_tag tag ++ ":" ++ configured_model_name tag s] /\
     (forall what,
        sdk_raises ext
          (OModel (FallbackModel (wire_tag tag ++ ":" ++ configured_model_name tag s) []
                     (environ w)))
        = Some what ->
        snd (get_llm_model ext model_name w) = Raise (ExternalError what))).
Proof.
  intros Hs Hn.
  assert (Hrun : forall primary rest,
             fallback_models_of s (environ w) = primary :: rest ->
             snd (get_llm_model ext model_name w) =
             match sdk_raises ext (OModel (FallbackModel primary rest (environ w))) with
             | None => Return (FallbackModel primary rest (environ w))
             | Some what => Raise (ExternalError what)
             end).
  { intros primary rest E.
    rewrite (get_llm_model_fallback ext model_name w s Hs Hn), E.
    apply new_model_outcome. }
  assert (Hone : forall tag,
             (forall t, has_api_key s (environ w) t = true <-> t = tag) ->
             fallback_models_of s (environ w) =
             [wire_tag tag ++ ":" ++ configured_model_name tag s]).
  { intros tag Honly. rewrite fallback_models_refine.
    unfold spec_fallback_chain, priority_order.
    assert (Hb : forall t, has_api_key s (environ w) t = if decide (t = tag) then true else false).
    { intros t. destruct (decide (t = tag)) as [-> | Hne].
      - apply Honly. reflexivity.
      - destruct (has_api_key s (environ w) t) eqn:E; [| reflexivity].
        apply Honly in E. contradiction. }
    cbn. rewrite !Hb. destruct tag; reflexivity. }
  split; [apply fallback_models_refine |].
  split; [exact Hrun |].
  split.
  - intros Hall. rewrite fallback_models_refine.
    unfold spec_fallback_chain, priority_order. cbn. rewrite !Hall. reflexivity.
  - intros tag Honly. split; [exact (Hone tag Honly) |].
    intros what Hraise. rewrite (Hrun _ _ (Hone tag Honly)), Hraise. reflexivity.
Qed.

Lemma fallback_chain_is_priority_filter_witness :
  loaded_settings ext_env_keys (world_of anthropic_settings ∅) = Some anthropic_settings /\
  py_or_str (Some "fallback") (ai_model anthropic_settings) = "fallback" /\
  fallback_models_of anthropic_settings ∅ = ["anthropic:claude-3-5-sonnet-latest"] /\
  snd (get_llm_model ext_env_keys (Some "fallback") (world_of anthropic_settings ∅))
  = Raise (ExternalError "API key environment variable not set").
Proof.
  assert (Honly : forall t, has_api_key anthropic_settings
                              (environ (world_of anthropic_settings ∅)) t = true
                            <-> t = anthropic).
  { intros t. destruct t; vm_compute; split; congruence. }
  split; [reflexivity |]. split; [reflexivity |].
  destruct (proj2 (proj2 (proj2
    (fallback_chain_is_priority_filter ext_env_keys (Some "fallback")
       (world_of anthropic_settings ∅) anthropic_settings eq_refl eq_refl)))
    anthropic Honly) as [Hchain Hraise].
  split; [exact Hchain |].
  exact (Hraise "API key environment variable not set" eq_refl).
Defined.

(** C3: with no provider holding a usable key, [get_llm_model] on "fallback"
    raises [ConfigurationException]; whenever it returns, the handle encodes
    the chain that was built and that chain has at least one entry. *)
Theorem fallback_never_empty ext model_name w s :
  loaded_settings ext w = Some s ->
  py_or_str model_name (ai_model s) = "fallback" ->
  ((forall tag, has_api_key s (environ w) tag = false) ->
   snd (get_llm_model ext model_name w) =
   Raise (ConfigurationException "No LLM providers configured for fallback model"
            "ai_model" [("requested_model", "fallback")])) /\
  (forall m, snd (get_llm_model ext model_name w) = Return m ->
             chain_of m = fallback_models_of s (environ w) /\
             (1 <= length (chain_of m))%nat).
Proof.
  intros Hs Hn. rewrite (get_llm_model_fallback ext model_name w s Hs Hn). split.
  - intros Hnone. rewrite fallback_models_refine.
    unfold spec_fallback_chain, priority_order. cbn. rewrite !Hnone. reflexivity.
  - intros m. destruct (fallback_models_of s (environ w)) as [| p rest];
      [discriminate |].
    rewrite new_model_outcome.
    destruct (sdk_raises ext (OModel (FallbackModel p rest (environ w)))); [discriminate |].
    intros [= <-]. simpl. split; [reflexivity | lia].
Qed.

Lemma fallback_never_empty_witness :
  loaded_settings ext_ok (world_of default_settings ∅) = Some default_settings /\
  py_or_str (Some "fallback") (ai_model default_settings) = "fallback" /\
  snd (get_llm_model ext_ok (Some "fallback") (world_of default_settings ∅)) =
  Raise (ConfigurationException "No LLM providers configured for fallback model"
           "ai_model" [("requested_model", "fallback")]).
Proof.
  split; [reflexivity |]. split; [reflexivity |].
  refine (proj1 (fallback_never_empty ext_ok (Some "fallback")
                   (world_of default_settings ∅) default_settings eq_refl eq_refl) _).
  intros t. destruct t; reflexivity.
Defined.

(** C10: on the fallback path with no usable provider the
    [ConfigurationException] reaches the caller as it was raised: it is not an
    [AIProviderException], and no logger call and no SDK constructor call has
    been made when it is raised; the four factories, on their missing key,
    raise the wrapping [AIProviderException] instead. *)
Theorem fallback_config_error_unwrapped ext model_name w s :
  loaded_settings ext w = Some s ->
  py_or_str model_name (ai_model s) = "fallback" ->
  (forall tag, has_api_key s (environ w) tag = false) ->
  (exists e, snd (get_llm_model ext model_name w) = Raise e /\
             is_ConfigurationException e = true /\
             is_AIProviderException e = false) /\
  events (fst (get_llm_model ext model_name w)) = events w /\
  (forall tag, exists e, snd (factory ext tag w) = Raise e /\
                         is_AIProviderException e = true).
Proof.
  intros Hs Hn Hnone.
  rewrite (get_llm_model_fallback ext model_name w s Hs Hn).
  assert (E : fallback_models_of s (environ w) = []).
  { rewrite fallback_models_refine. unfold spec_fallback_chain, priority_order.
    cbn. rewrite !Hnone. reflexivity. }
  rewrite E. simpl. split; [| split].
  - eexists. split; [reflexivity |]. split; reflexivity.
  - reflexivity.
  - intros tag. rewrite (factory_no_key ext tag w s Hs (Hnone tag)).
    eexists. split; [reflexivity |]. destruct tag; reflexivity.
Qed.

Lemma fallback_config_error_unwrapped_witness :
  (forall tag, has_api_key default_settings ∅ tag = false) /\
  events (fst (get_llm_model ext_ok (Some "fallback") (world_of default_settings ∅))) = [].
Proof.
  assert (H : forall tag, has_api_key default_settings ∅ tag = false)
    by (intros t; destruct t; reflexivity).
  split; [exact H |].
  exact (proj1 (proj2 (fallback_config_error_unwrapped ext_ok (Some "fallback")
                         (world_of default_settings ∅) default_settings
                         eq_refl eq_refl H))).
Defined.

(** ** Unrecognised identifiers *)

(** C4, as stated, fails at the empty identifier: it starts with none of the
    prefixes and is not "fallback", yet [model_name or settings.ai_model]
    replaces it by the configured identifier before the dispatch. With
    ai_model = "anthropic:claude-3-5-sonnet-latest" and an Anthropic key the
    call returns an Anthropic handle, logs no warning and never enters the
    OpenAI factory. *)
Lemma empty_identifier_not_defaulted :
  unrecognized "" /\
  get_llm_model ext_ok (Some "") (world_of anthropic_settings ∅) =
  ({| settings := Some anthropic_settings; environ := ∅;
      events := [Construct (OProvider (AnthropicProvider_api_key "sk-ant-test"));
                 Construct (OModel (AnthropicModel "claude-3-5-sonnet-latest"
                                      (AnthropicProvider_api_key "sk-ant-test")))] |},
   Return (AnthropicModel "claude-3-5-sonnet-latest"
             (AnthropicProvider_api_key "sk-ant-test"))) /\
  get_llm_model ext_ok (Some "") (world_of anthropic_settings ∅) <>
  default_path ext_ok "" (world_of anthropic_settings ∅).
Proof.
  split; [| split].
  - unfold unrecognized. repeat split; try reflexivity. discriminate.
  - vm_compute. reflexivity.
  - vm_compute. discriminate.
Qed.

(** C4, amended: once an empty or absent identifier has been replaced by
    [settings.ai_model], every identifier that starts with none of the four
    prefixes and is not "fallback" raises no parse error: the call logs the
    warning and then runs the OpenAI factory, whose result it returns. In
    particular this holds for every non-empty identifier of that kind. *)
Theorem unrecognized_defaults_to_openai ext model_name w s :
  loaded_settings ext w = Some s ->
  unrecognized (py_or_str model_name (ai_model s)) ->
  get_llm_model ext model_name w =
  default_path ext (py_or_str model_name (ai_model s)) (with_settings w s) /\
  (forall ident, model_name = Some ident -> ident <> "" ->
     get_llm_model ext (Some ident) w =
     get_openai_model ext
       (with_events (with_settings w s)
          [Log WARNING ("Unknown model name '" ++ ident ++ "', defaulting to OpenAI")])).
Proof.
  intros Hs Hu. split.
  - apply get_llm_model_unrecognized; assumption.
  - intros ident -> Hne.
    rewrite (get_llm_model_unrecognized ext (Some ident) w s Hs Hu).
    simpl. destruct (String.eqb_spec ident "") as [E | _]; [contradiction |].
    reflexivity.
Qed.

Lemma unrecognized_defaults_to_openai_witness :
  loaded_settings ext_ok (world_of default_settings {["OPENAI_API_KEY" := "test-key"]})
  = Some default_settings /\
  unrecognized (py_or_str (Some "bogus") (ai_model default_settings)) /\
  get_llm_model ext_ok (Some "bogus")
    (world_of default_settings {["OPENAI_API_KEY" := "test-key"]}) =
  default_path ext_ok "bogus"
    (with_settings (world_of default_settings {["OPENAI_API_KEY" := "test-key"]})
       default_settings).
Proof.
  assert (Hu : unrecognized (py_or_str (Some "bogus") (ai_model default_settings))).
  { unfold unrecognized. simpl. repeat split; try reflexivity. discriminate. }
  split; [reflexivity |]. split; [exact Hu |].
  exact (proj1 (unrecognized_defaults_to_openai ext_ok (Some "bogus")
                  (world_of default_settings {["OPENAI_API_KEY" := "test-key"]})
                  default_settings eq_refl Hu)).
Defined.

(** ** Credentials and base URLs *)

(** C6: the key a factory uses is the first non-empty value among the
    configured value and then the provider's environment variables; a
    non-empty configured value is used whatever the environment holds, and for
    Google a non-empty GOOGLE_API_KEY is used whatever GEMINI_API_KEY holds. *)
Theorem credential_resolution_order ext tag w s k :
  sdk_succeeds ext ->
  loaded_settings ext w = Some s ->
  (first_non_empty (api_key_sources tag s (environ w)) = Some k ->
   uses_key (factory ext tag w) k) /\
  (configured_api_key tag s = Some k -> k <> "" ->
   uses_key (factory ext tag w) k) /\
  (tag = google -> truthy (google_api_key s) = false ->
   os_getenv (environ w) "GOOGLE_API_KEY" = Some k -> k <> "" ->
   uses_key (get_google_model ext w) k).
Proof.
  intros Hsdk Hs.
  assert (Hfirst : first_non_empty (api_key_sources tag s (environ w)) = Some k ->
                   uses_key (factory ext tag w) k).
  { intros Hf. destruct (resolved_api_key_first tag s (environ w) k Hf) as [Hr Hne].
    assert (Hk : has_api_key s (environ w) tag = true).
    { rewrite <- resolved_api_key_truthy, Hr. simpl.
      destruct (String.eqb_spec k ""); [contradiction | reflexivity]. }
    rewrite (factory_success ext tag w s Hsdk Hs Hk).
    exists (built_handle tag s (environ w)). split; [reflexivity |].
    unfold built_handle. rewrite Hr.
    destruct tag; simpl;
      repeat match goal with
             | |- context [truthy ?v] => destruct (truthy v)
             end; reflexivity. }
  assert (Htruthy : k <> "" -> truthy (Some k) = true).
  { intros Hne. simpl. destruct (String.eqb_spec k ""); [contradiction | reflexivity]. }
  split; [exact Hfirst |]. split.
  - intros Hc Hne. apply Hfirst. unfold api_key_sources. simpl.
    rewrite Hc, (Htruthy Hne). reflexivity.
  - intros -> Hc Hg Hne. apply Hfirst. unfold api_key_sources. simpl.
    rewrite Hc, Hg, (Htruthy Hne). reflexivity.
Qed.

Lemma credential_resolution_order_witness :
  sdk_succeeds ext_ok /\
  uses_key
    (get_google_model ext_ok
       (world_of default_settings
          (<["GOOGLE_API_KEY" := "google-key"]> {["GEMINI_API_KEY" := "gemini-key"]})))
    "google-key".
Proof.
  assert (Hsdk : sdk_succeeds ext_ok) by (intros o _; reflexivity).
  split; [exact Hsdk |].
  refine (proj2 (proj2 (credential_resolution_order ext_ok google
    (world_of default_settings
       (<["GOOGLE_API_KEY" := "google-key"]> {["GEMINI_API_KEY" := "gemini-key"]}))
    default_settings "google-key" Hsdk eq_refl)) eq_refl eq_refl eq_refl _).
  discriminate.
Defined.

(** C7: for each of the four provider prefixes, with a non-empty key in the
    configuration or in one of the provider's environment variables,
    [get_llm_model] returns a handle of that provider bound to the model name
    configured in the settings; the text after the colon plays no part. *)
Theorem credentialed_resolution_returns_handle ext tag model_name w s :
  sdk_succeeds ext ->
  loaded_settings ext w = Some s ->
  startswith (py_or_str model_name (ai_model s)) (prefix_of tag) = true ->
  has_api_key s (environ w) tag = true ->
  (exists m, snd (get_llm_model ext model_name w) = Return m /\
             handle_of_tag tag m = true /\
             model_name_of m = Some (configured_model_name tag s)) /\
  (forall other, startswith other (prefix_of tag) = true ->
                 get_llm_model ext (Some other) w = get_llm_model ext model_name w).
Proof.
  intros Hsdk Hs Hp Hk.
  rewrite (get_llm_model_prefixed ext tag model_name w s Hs Hp). split.
  - rewrite (factory_success ext tag w s Hsdk Hs Hk).
    exists (built_handle tag s (environ w)). split; [reflexivity |].
    unfold built_handle.
    destruct tag; simpl;
      repeat match goal with
             | |- context [truthy ?v] => destruct (truthy v)
             end; split; reflexivity.
  - intros other Ho. apply get_llm_model_prefixed with (s := s); [exact Hs |].
    destruct (startswith_split _ _ Ho) as [r ->].
    rewrite py_or_str_prefixed. exact Ho.
Qed.

Lemma credentialed_resolution_returns_handle_witness :
  sdk_succeeds ext_ok /\
  has_api_key default_settings {["GEMINI_API_KEY" := "test-key"]} google = true /\
  exists m,
    snd (get_llm_model ext_ok (Some "gemini:gemini-1.5-pro")
           (world_of default_settings {["GEMINI_API_KEY" := "test-key"]})) = Return m /\
    handle_of_tag google m = true /\
    model_name_of m = Some "gemini-2.5-pro".
Proof.
  assert (Hsdk : sdk_succeeds ext_ok) by (intros o _; reflexivity).
  split; [exact Hsdk |]. split; [reflexivity |].
  exact (proj1 (credentialed_resolution_returns_handle ext_ok google
                  (Some "gemini:gemini-1.5-pro")
                  (world_of default_settings {["GEMINI_API_KEY" := "test-key"]})
                  default_settings Hsdk eq_refl eq_refl eq_refl)).
Defined.

(** C8: with a key present, a non-empty base-URL override (configured value,
    else environment variable) makes the OpenAI and the Anthropic factory build
    the handle over a client with that base URL, where without it the handle is
    built from the key alone; the Google factory builds the same handle with
    the same constructor calls in both cases, and with an override it logs
    the warning that the setting is ignored and still returns the handle. *)
Theorem base_url_override ext w s :
  sdk_succeeds ext ->
  loaded_settings ext w = Some s ->
  (forall k, resolved_api_key openai s (environ w) = Some k -> k <> "" ->
     (forall b, resolved_base_url openai s (environ w) = Some b -> b <> "" ->
        snd (get_openai_model ext w) =
        Return (OpenAIModel (openai_model_name s)
                  (OpenAIProvider_client (AsyncOpenAI k b)))) /\
     (truthy (resolved_base_url openai s (environ w)) = false ->
        snd (get_openai_model ext w) =
        Return (OpenAIModel (openai_model_name s) (OpenAIProvider_api_key k)))) /\
  (forall k, resolved_api_key anthropic s (environ w) = Some k -> k <> "" ->
     (forall b, resolved_base_url anthropic s (environ w) = Some b -> b <> "" ->
        snd (get_anthropic_model ext w) =
        Return (AnthropicModel (anthropic_model_name s)
                  (AnthropicProvider_client (AsyncAnthropic k b)))) /\
     (truthy (resolved_base_url anthropic s (environ w)) = false ->
        snd (get_anthropic_model ext w) =
        Return (AnthropicModel (anthropic_model_name s) (AnthropicProvider_api_key k)))) /\
  (forall k, resolved_api_key google s (environ w) = Some k -> k <> "" ->
     snd (get_google_model ext w) =
     Return (GoogleModel (gemini_model_name s) (GoogleProvider k)) /\
     (forall b, resolved_base_url google s (environ w) = Some b -> b <> "" ->
        events (fst (get_google_model ext w)) =
        (events w ++
         [Log INFO ("Using custom Google base URL: " ++ b);
          Log WARNING google_base_url_warning;
          Construct (OProvider (GoogleProvider k));
          Construct (OModel (GoogleModel (gemini_model_name s) (GoogleProvider k)))])%list) /\
     (truthy (resolved_base_url google s (environ w)) = false ->
        events (fst (get_google_model ext w)) =
        (events w ++
         [Construct (OProvider (GoogleProvider k));
          Construct (OModel (GoogleModel (gemini_model_name s) (GoogleProvider k)))])%list)).
Proof.
  intros Hsdk Hs.
  assert (Htruthy : forall v k, v = Some k -> k <> "" -> truthy v = true).
  { intros v k -> Hne. simpl. destruct (String.eqb_spec k ""); [contradiction | reflexivity]. }
  assert (Hrun : forall tag k, resolved_api_key tag s (environ w) = Some k -> k <> "" ->
            factory ext tag w =
            (with_events (with_settings w s)
               (base_url_logs tag s (environ w)
                ++ constructions (built_handle tag s (environ w))),
             Return (built_handle tag s (environ w)))).
  { intros tag k Hr Hne. apply factory_success; [exact Hsdk | exact Hs |].
    rewrite <- resolved_api_key_truthy. exact (Htruthy _ _ Hr Hne). }
  assert (Hopenai : get_openai_model ext w = factory ext openai w) by reflexivity.
  assert (Hanthropic : get_anthropic_model ext w = factory ext anthropic w) by reflexivity.
  assert (Hgoogle : get_google_model ext w = factory ext google w) by reflexivity.
  split; [| split]; intros k Hk Hne.
  - rewrite Hopenai, (Hrun openai k Hk Hne). unfold built_handle. rewrite Hk. split.
    + intros b Hb Hbne. rewrite (Htruthy _ _ Hb Hbne), Hb. reflexivity.
    + intros Hb. rewrite Hb. reflexivity.
  - rewrite Hanthropic, (Hrun anthropic k Hk Hne). unfold built_handle. rewrite Hk. split.
    + intros b Hb Hbne. rewrite (Htruthy _ _ Hb Hbne), Hb. reflexivity.
    + intros Hb. rewrite Hb. reflexivity.
  - rewrite Hgoogle, (Hrun google k Hk Hne). unfold built_handle, base_url_logs.
    rewrite Hk. split; [reflexivity | split].
    + intros b Hb Hbne. rewrite (Htruthy _ _ Hb Hbne), Hb. reflexivity.
    + intros Hb. rewrite Hb. reflexivity.
Qed.

Lemma base_url_override_witness :
  sdk_succeeds ext_ok /\
  snd (get_openai_model ext_ok
         (world_of default_settings
            (<["OPENAI_API_KEY" := "test-key"]> {["OPENAI_BASE_URL" := "http://localhost:8080/v1"]})))
  = Return (OpenAIModel "gpt-4o"
              (OpenAIProvider_client (AsyncOpenAI "test-key" "http://localhost:8080/v1"))) /\
  snd (get_google_model ext_ok
         (world_of default_settings
            (<["GOOGLE_API_KEY" := "test-key"]> {["GOOGLE_BASE_URL" := "http://localhost:8080/v1"]})))
  = Return (GoogleModel "gemini-2.5-pro" (GoogleProvider "test-key")).
Proof.
  assert (Hsdk : sdk_succeeds ext_ok) by (intros o _; reflexivity).
  split; [exact Hsdk |]. split.
  - refine (proj1 (proj1 (base_url_override ext_ok
      (world_of default_settings
         (<["OPENAI_API_KEY" := "test-key"]> {["OPENAI_BASE_URL" := "http://localhost:8080/v1"]}))
      default_settings Hsdk eq_refl) "test-key" eq_refl _) "http://localhost:8080/v1" eq_refl _);
      discriminate.
  - refine (proj1 (proj2 (proj2 (base_url_override ext_ok
      (world_of default_settings
         (<["GOOGLE_API_KEY" := "test-key"]> {["GOOGLE_BASE_URL" := "http://localhost:8080/v1"]}))
      default_settings Hsdk eq_refl)) "test-key" eq_refl _)); discriminate.
Defined.

(** ** Repeated resolution *)

(** C9: under unchanged configuration and environment the outcome of
    [get_llm_model] is a function of the identifier, the settings and the
    environment: a second call made right after a first one has the same
    outcome (the same handle description or the same exception), and so have
    calls in any two worlds with the same configuration; a call leaves the
    configuration as it found it. *)
Theorem resolution_is_repeatable ext model_name w :
  snd (get_llm_model ext model_name (fst (get_llm_model ext model_name w))) =
  snd (get_llm_model ext model_name w) /\
  same_config ext (fst (get_llm_model ext model_name w)) w /\
  (forall w', same_config ext w w' ->
              snd (get_llm_model ext model_name w) =
              snd (get_llm_model ext model_name w')).
Proof.
  destruct (respects_get_llm_model ext model_name) as [Hstable Hdet].
  split; [| split].
  - apply Hdet. apply Hstable.
  - apply Hstable.
  - intros w'. apply Hdet.
Qed.

Lemma resolution_is_repeatable_witness :
  same_config ext_ok
    (world_of default_settings {["OPENAI_API_KEY" := "test-key"]})
    {| settings := None; environ := {["OPENAI_API_KEY" := "test-key"]};
       events := [Log INFO "started"] |} /\
  snd (get_llm_model ext_ok (Some "openai:gpt-4")
         (world_of default_settings {["OPENAI_API_KEY" := "test-key"]})) =
  snd (get_llm_model ext_ok (Some "openai:gpt-4")
         {| settings := None; environ := {["OPENAI_API_KEY" := "test-key"]};
            events := [Log INFO "started"] |}).
Proof.
  assert (H : same_config ext_ok
                (world_of default_settings {["OPENAI_API_KEY" := "test-key"]})
                {| settings := None; environ := {["OPENAI_API_KEY" := "test-key"]};
                   events := [Log INFO "started"] |})
    by (split; reflexivity).
  split; [exact H |].
  exact (proj2 (proj2 (resolution_is_repeatable ext_ok (Some "openai:gpt-4")
                         (world_of default_settings {["OPENAI_API_KEY" := "test-key"]})))
           _ H).
Defined.

(** * Further properties of the code *)

(** ** The settings singleton *)

(** Once [get_settings] has returned, every later call returns the same
    settings and leaves the world as it is, whatever the environment has become
    and whatever the loader would now produce. *)
Theorem get_settings_singleton ext ext' w s env' evs :
  snd (get_settings ext w) = Return s ->
  get_settings ext'
    {| settings := settings (fst (get_settings ext w)); environ := env'; events := evs |}
  = ({| settings := Some s; environ := env'; events := evs |}, Return s).
Proof.
  unfold get_settings. destruct (settings w) eqn:E; simpl.
  - intros [= ->]. rewrite E. reflexivity.
  - destruct (Settings_new ext (environ w)); simpl; [discriminate |].
    intros [= ->]. reflexivity.
Qed.

Lemma get_settings_singleton_witness :
  get_settings ext_unloadable
    {| settings :=
         settings (fst (get_settings ext_ok
                          {| settings := None; environ := ∅; events := [] |}));
       environ := {["OPENAI_API_KEY" := "rotated"]}; events := [] |}
  = ({| settings := Some default_settings;
        environ := {["OPENAI_API_KEY" := "rotated"]}; events := [] |},
     Return default_settings).
Proof.
  apply (get_settings_singleton ext_ok ext_unloadable
           {| settings := None; environ := ∅; events := [] |} default_settings).
  reflexivity.
Defined.

(** ** What a factory does when something fails *)

Lemma constructions_objects m : constructions m = map Construct (objects_of m).
Proof.
  unfold constructions, objects_of. rewrite !map_app, !map_map. reflexivity.
Qed.

(** The run of a factory that has found its key, in terms of the constructor
    calls it makes. *)
Lemma factory_run ext tag w s :
  loaded_settings ext w = Some s ->
  has_api_key s (environ w) tag = true ->
  factory ext tag w =
  match run_constructions ext (objects_of (built_handle tag s (environ w))) with
  | (evs, None) =>
      (with_events (with_settings w s) (base_url_logs tag s (environ w) ++ evs),
       Return (built_handle tag s (environ w)))
  | (evs, Some what) =>
      (with_events (with_settings w s)
         (base_url_logs tag s (environ w) ++ evs
          ++ [error_log ext tag (ExternalError what)]),
       Raise (init_failed tag s (ExternalError what)))
  end.
Proof.
  intros Hs Hk. rewrite <- resolved_api_key_truthy in Hk.
  unfold built_handle, base_url_logs, objects_of, error_log.
  destruct tag; simpl in Hk |- *; run_factory Hs;
    [ destruct (truthy (py_or (openai_base_url s) _)) eqn:Hb
    | destruct (truthy (py_or (anthropic_base_url s) _)) eqn:Hb
    | destruct (truthy (py_or (google_base_url s) _)) eqn:Hb
    | idtac ];
    simpl; rewrite ?Hk; simpl;
    repeat match goal with
           | |- context [sdk_raises ext ?o] => destruct (sdk_raises ext o) eqn:?; simpl
           end;
    unfold with_events; simpl; rewrite <- ?app_assoc; reflexivity.
Qed.

Lemma run_constructions_failure ext objs evs what :
  run_constructions ext objs = (evs, Some what) ->
  exists o, In o objs /\ sdk_raises ext o = Some what.
Proof.
  revert evs. induction objs as [| o rest IH]; intros evs H; simpl in H.
  - discriminate.
  - destruct (sdk_raises ext o) as [what' |] eqn:E.
    + inversion H; subst. exists o. split; [left; reflexivity | exact E].
    + destruct (run_constructions ext rest) as [evs' failure] eqn:E'.
      inversion H; subst. destruct (IH _ eq_refl) as (o' & Hin & Ho').
      exists o'. split; [right; exact Hin | exact Ho'].
Qed.

Lemma run_constructions_first ext pre o post what :
  (forall p, In p pre -> sdk_raises ext p = None) ->
  sdk_raises ext o = Some what ->
  run_constructions ext (pre ++ o :: post) = (map Construct pre ++ [Construct o], Some what)%list.
Proof.
  intros Hpre Ho. induction pre as [| p pre IH]; simpl.
  - rewrite Ho. reflexivity.
  - rewrite (Hpre p (or_introl eq_refl)), IH; [reflexivity |].
    intros q Hq. apply Hpre. right. exact Hq.
Qed.

(** The run of a factory that finds no key. *)
Lemma factory_no_key_run ext tag w s :
  loaded_settings ext w = Some s ->
  has_api_key s (environ w) tag = false ->
  factory ext tag w =
  (with_events (with_settings w s)
     (base_url_logs tag s (environ w) ++ [error_log ext tag (key_not_found tag s)]),
   Raise (init_failed tag s (key_not_found tag s))).
Proof.
  intros Hs Hk. rewrite <- resolved_api_key_truthy in Hk.
  unfold base_url_logs, error_log.
  destruct tag; simpl in Hk |- *; run_factory Hs;
    [ destruct (truthy (py_or (openai_base_url s) _)) eqn:Hb
    | destruct (truthy (py_or (anthropic_base_url s) _)) eqn:Hb
    | destruct (truthy (py_or (google_base_url s) _)) eqn:Hb
    | idtac ];
    simpl; rewrite ?Hk; simpl;
    unfold with_events; simpl; rewrite <- ?app_assoc; reflexivity.
Qed.

(** The run of a factory when the settings cannot be loaded. *)
Lemma factory_unloaded ext tag w what :
  settings w = None ->
  Settings_new ext (environ w) = inl what ->
  factory ext tag w =
  (with_events w [error_log ext tag (ExternalError what)],
   Raise (UnboundLocalError "settings")).
Proof.
  intros Hnone Hload.
  destruct tag; simpl;
    unfold get_openai_model, get_anthropic_model, get_google_model,
      get_openrouter_model, try_settings, get_settings;
    rewrite Hnone, Hload; reflexivity.
Qed.

(** When [Settings()] raises inside a factory, the handler logs the failure
    and then fails itself on the unbound local [settings]: the caller gets an
    [UnboundLocalError], not an [AIProviderException]. *)
Theorem factory_unbound_settings ext tag w what :
  settings w = None ->
  Settings_new ext (environ w) = inl what ->
  snd (factory ext tag w) = Raise (UnboundLocalError "settings") /\
  events (fst (factory ext tag w)) =
  (events w ++ [Log ERROR (init_message tag ++ ": " ++ exn_str ext (ExternalError what))])%list /\
  settings (fst (factory ext tag w)) = None.
Proof.
  intros Hnone Hload. rewrite (factory_unloaded ext tag w what Hnone Hload).
  simpl. rewrite Hnone. repeat split; reflexivity.
Qed.

Lemma factory_unbound_settings_witness :
  snd (get_openai_model ext_unloadable {| settings := None; environ := ∅; events := [] |})
  = Raise (UnboundLocalError "settings").
Proof.
  exact (proj1 (factory_unbound_settings ext_unloadable openai
                  {| settings := None; environ := ∅; events := [] |}
                  "validation error" eq_refl eq_refl)).
Defined.

(** When [Settings()] raises in [get_llm_model] itself, the loader's exception
    reaches the caller as it is: nothing is logged, no factory is entered and
    the world is unchanged. *)
Theorem get_llm_model_settings_failure ext model_name w what :
  settings w = None ->
  Settings_new ext (environ w) = inl what ->
  get_llm_model ext model_name w = (w, Raise (ExternalError what)).
Proof.
  intros Hnone Hload. unfold get_llm_model, bind, get_settings.
  rewrite Hnone, Hload. reflexivity.
Qed.

Lemma get_llm_model_settings_failure_witness :
  get_llm_model ext_unloadable (Some "fallback")
    {| settings := None; environ := ∅; events := [] |}
  = ({| settings := None; environ := ∅; events := [] |},
     Raise (ExternalError "validation error")).
Proof.
  apply (get_llm_model_settings_failure ext_unloadable (Some "fallback")
           {| settings := None; environ := ∅; events := [] |} "validation error");
    reflexivity.
Defined.

(** With the settings loaded, whatever a factory raises is its
    [AIProviderException], carrying the provider's configured model name and,
    as [original_error], either the missing-key [ConfigurationException] (when
    no key is found) or the exception of one of the SDK constructors it calls
    (when a key is found). *)
Theorem factory_raises_only_init_failed ext tag w s e :
  loaded_settings ext w = Some s ->
  snd (factory ext tag w) = Raise e ->
  (has_api_key s (environ w) tag = false /\
   e = init_failed tag s (key_not_found tag s)) \/
  (has_api_key s (environ w) tag = true /\
   exists o what,
     In o (objects_of (built_handle tag s (environ w))) /\
     sdk_raises ext o = Some what /\
     e = init_failed tag s (ExternalError what)).
Proof.
  intros Hs. destruct (has_api_key s (environ w) tag) eqn:Hk.
  - rewrite (factory_run ext tag w s Hs Hk).
    destruct (run_constructions ext (objects_of (built_handle tag s (environ w))))
      as [evs [what |]] eqn:Hrun; simpl; [| discriminate].
    intros [= <-]. right. split; [reflexivity |].
    destruct (run_constructions_failure _ _ _ _ Hrun) as (o & Hin & Ho).
    exists o, what. auto.
  - rewrite (factory_no_key_run ext tag w s Hs Hk). simpl.
    intros [= <-]. left. auto.
Qed.

Lemma factory_raises_only_init_failed_witness :
  exists o what,
    In o (objects_of (built_handle openrouter default_settings
                        {["OPENROUTER_API_KEY" := "test-key"]})) /\
    sdk_raises ext_no_client o = Some what /\
    AIProviderException "Failed to initialize OpenRouter model" "openrouter"
      "openai/gpt-4o" (ExternalError "invalid URL")
    = init_failed openrouter default_settings (ExternalError what).
Proof.
  assert (Hrun : snd (factory ext_no_client openrouter
                        (world_of default_settings {["OPENROUTER_API_KEY" := "test-key"]}))
                 = Raise (AIProviderException "Failed to initialize OpenRouter model"
                            "openrouter" "openai/gpt-4o" (ExternalError "invalid URL")))
    by (vm_compute; reflexivity).
  destruct (factory_raises_only_init_failed ext_no_client openrouter
              (world_of default_settings {["OPENROUTER_API_KEY" := "test-key"]})
              default_settings _ eq_refl Hrun) as [[Hk _] | [_ H]].
  - discriminate Hk.
  - exact H.
Defined.

(** Whenever a factory raises, the last thing it did was to log the cause at
    error level, with the factory's message and [str] of the cause; the cause
    is the [original_error] of the exception raised, except when the handler
    failed on the unbound [settings]. *)
Theorem factory_failure_is_logged ext tag w e :
  snd (factory ext tag w) = Raise e ->
  exists evs cause,
    events (fst (factory ext tag w)) =
    (evs ++ [Log ERROR (init_message tag ++ ": " ++ exn_str ext cause)])%list /\
    (e = UnboundLocalError "settings" \/ exists s, e = init_failed tag s cause).
Proof.
  destruct (loaded_settings ext w) as [s |] eqn:Hs.
  - destruct (has_api_key s (environ w) tag) eqn:Hk.
    + rewrite (factory_run ext tag w s Hs Hk).
      destruct (run_constructions ext (objects_of (built_handle tag s (environ w))))
        as [evs [what |]]; simpl; [| discriminate].
      intros [= <-].
      exists (events w ++ base_url_logs tag s (environ w) ++ evs)%list,
             (ExternalError what).
      split; [| right; exists s; reflexivity].
      unfold error_log. rewrite <- !app_assoc. reflexivity.
    + rewrite (factory_no_key_run ext tag w s Hs Hk). simpl. intros [= <-].
      exists (events w ++ base_url_logs tag s (environ w))%list, (key_not_found tag s).
      split; [| right; exists s; reflexivity].
      unfold error_log. rewrite <- !app_assoc. reflexivity.
  - unfold loaded_settings in Hs. destruct (settings w) eqn:Hnone; [discriminate |].
    destruct (Settings_new ext (environ w)) as [what | s] eqn:Hload; [| discriminate].
    rewrite (factory_unloaded ext tag w what Hnone Hload). simpl. intros [= <-].
    exists (events w), (ExternalError what). split; [reflexivity | left; reflexivity].
Qed.

Lemma factory_failure_is_logged_witness :
  exists evs cause,
    events (fst (get_google_model ext_ok (world_of default_settings ∅))) =
    (evs ++ [Log ERROR ("Failed to initialize Google model" ++ ": " ++ exn_str ext_ok cause)])%list /\
    (AIProviderException "Failed to initialize Google model" "google" "gemini-2.5-pro"
       (ConfigurationException "Google API key not found" "google_api_key"
          [("model_name", "gemini-2.5-pro")]) = UnboundLocalError "settings" \/
     exists s,
       AIProviderException "Failed to initialize Google model" "google" "gemini-2.5-pro"
         (ConfigurationException "Google API key not found" "google_api_key"
            [("model_name", "gemini-2.5-pro")]) = init_failed google s cause).
Proof.
  assert (Hrun : snd (factory ext_ok google (world_of default_settings ∅))
                 = Raise (AIProviderException "Failed to initialize Google model" "google"
                            "gemini-2.5-pro"
                            (ConfigurationException "Google API key not found"
                               "google_api_key" [("model_name", "gemini-2.5-pro")])))
    by (vm_compute; reflexivity).
  exact (factory_failure_is_logged ext_ok google (world_of default_settings ∅) _ Hrun).
Defined.

(** A factory stops at the first SDK constructor that raises: the objects
    before it have been constructed, those after it are never asked for, the
    failure is logged and raised as the factory's [AIProviderException]. *)
Theorem factory_stops_at_first_failure ext tag w s pre o post what :
  loaded_settings ext w = Some s ->
  has_api_key s (environ w) tag = true ->
  objects_of (built_handle tag s (environ w)) = (pre ++ o :: post)%list ->
  (forall p, In p pre -> sdk_raises ext p = None) ->
  sdk_raises ext o = Some what ->
  factory ext tag w =
  (with_events (with_settings w s)
     (base_url_logs tag s (environ w) ++ map Construct pre
      ++ [Construct o;
          Log ERROR (init_message tag ++ ": " ++ exn_str ext (ExternalError what))]),
   Raise (init_failed tag s (ExternalError what))).
Proof.
  intros Hs Hk Hobjs Hpre Ho.
  rewrite (factory_run ext tag w s Hs Hk), Hobjs,
    (run_constructions_first ext pre o post what Hpre Ho).
  unfold error_log. rewrite <- !app_assoc. reflexivity.
Qed.

Lemma factory_stops_at_first_failure_witness :
  get_openrouter_model ext_no_client
    (world_of default_settings {["OPENROUTER_API_KEY" := "test-key"]}) =
  ({| settings := Some default_settings;
      environ := {["OPENROUTER_API_KEY" := "test-key"]};
      events := [Log INFO "Using OpenRouter base URL: https://openrouter.ai/api/v1";
                 Construct (OClient (AsyncOpenAI "test-key" "https://openrouter.ai/api/v1"));
                 Log ERROR "Failed to initialize OpenRouter model: error"] |},
   Raise (AIProviderException "Failed to initialize OpenRouter model" "openrouter"
            "openai/gpt-4o" (ExternalError "invalid URL"))).
Proof.
  refine (factory_stops_at_first_failure ext_no_client openrouter
            (world_of default_settings {["OPENROUTER_API_KEY" := "test-key"]})
            default_settings []
            (OClient (AsyncOpenAI "test-key" "https://openrouter.ai/api/v1"))
            _ "invalid URL" eq_refl eq_refl eq_refl _ eq_refl).
  intros p [].
Defined.

(** ** What a factory reads and what it writes to the log *)

(** With the settings singleton initialised, a factory depends on the
    environment through its own variables only: any two environments that
    agree on them give the same outcome and the same trace. In particular no
    environment variable can move the OpenRouter base URL. *)
Theorem factory_reads_only_its_variables ext tag s (env env' : gmap string string) evs :
  (forall name, In name (variables_read tag) -> env' !! name = env !! name) ->
  snd (factory ext tag {| settings := Some s; environ := env'; events := evs |}) =
  snd (factory ext tag {| settings := Some s; environ := env; events := evs |}) /\
  events (fst (factory ext tag {| settings := Some s; environ := env'; events := evs |})) =
  events (fst (factory ext tag {| settings := Some s; environ := env; events := evs |})).
Proof.
  intros Hagree.
  destruct tag; simpl;
    unfold get_openai_model, get_anthropic_model, get_google_model,
      get_openrouter_model, try_settings, get_settings; simpl;
    run_exec; unfold os_getenv;
    repeat first
      [ rewrite Hagree by (simpl; auto 6)
      | match goal with
        | |- context [truthy ?v] => destruct (truthy v) eqn:?; simpl
        | |- context [sdk_raises ext ?o] => destruct (sdk_raises ext o) eqn:?; simpl
        end ];
    split; reflexivity.
Qed.

Lemma factory_reads_only_its_variables_witness :
  snd (get_openrouter_model ext_ok
         {| settings := Some default_settings;
            environ := <["OPENROUTER_BASE_URL" := "http://localhost"]>
                         {["OPENROUTER_API_KEY" := "test-key"]};
            events := [] |}) =
  snd (get_openrouter_model ext_ok
         {| settings := Some default_settings;
            environ := {["OPENROUTER_API_KEY" := "test-key"]};
            events := [] |}).
Proof.
  refine (proj1 (factory_reads_only_its_variables ext_ok openrouter default_settings
                   {["OPENROUTER_API_KEY" := "test-key"]}
                   (<["OPENROUTER_BASE_URL" := "http://localhost"]>
                      {["OPENROUTER_API_KEY" := "test-key"]}) [] _)).
  intros name [<- | []]. vm_compute. reflexivity.
Defined.

Lemma logs_constructions m : logs (constructions m) = [].
Proof.
  destruct m as [n p | n p | n p | p rest]; try reflexivity; destruct p; reflexivity.
Qed.

Lemma logs_base_url_logs tag s env : logs (base_url_logs tag s env) = base_url_logs tag s env.
Proof.
  unfold base_url_logs.
  destruct tag; try destruct (truthy (resolved_base_url _ s env)); reflexivity.
Qed.

(** A successful run of a factory writes no log record that depends on the
    API key: two configurations with a key each, and the same base URL, give
    the same log records, whatever the keys are. *)
Theorem api_key_not_logged ext tag s s' env env' evs :
  sdk_succeeds ext ->
  has_api_key s env tag = true ->
  has_api_key s' env' tag = true ->
  resolved_base_url tag s' env' = resolved_base_url tag s env ->
  logs (events (fst (factory ext tag {| settings := Some s'; environ := env'; events := evs |})))
  = logs (events (fst (factory ext tag {| settings := Some s; environ := env; events := evs |}))).
Proof.
  intros Hsdk Hk Hk' Hb.
  rewrite (factory_success ext tag {| settings := Some s'; environ := env'; events := evs |}
             s' Hsdk eq_refl Hk'),
    (factory_success ext tag {| settings := Some s; environ := env; events := evs |}
       s Hsdk eq_refl Hk).
  simpl. unfold logs. rewrite !List.filter_app.
  fold (logs (constructions (built_handle tag s' env'))).
  fold (logs (constructions (built_handle tag s env))).
  rewrite !logs_constructions.
  replace (base_url_logs tag s' env') with (base_url_logs tag s env); [reflexivity |].
  unfold base_url_logs. rewrite Hb. reflexivity.
Qed.

Lemma api_key_not_logged_witness :
  logs (events (fst (get_openai_model ext_ok
                       {| settings := Some default_settings;
                          environ := {["OPENAI_API_KEY" := "sk-first"]};
                          events := [] |})))
  = logs (events (fst (get_openai_model ext_ok
                         {| settings := Some default_settings;
                            environ := {["OPENAI_API_KEY" := "sk-second"]};
                            events := [] |}))).
Proof.
  assert (Hsdk : sdk_succeeds ext_ok) by (intros o _; reflexivity).
  exact (api_key_not_logged ext_ok openai default_settings default_settings
           {["OPENAI_API_KEY" := "sk-second"]} {["OPENAI_API_KEY" := "sk-first"]} []
           Hsdk eq_refl eq_refl eq_refl).
Defined.

(** ** More on the fallback chain *)

Lemma chain_entry_inj t1 t2 s s' : chain_entry t1 s = chain_entry t2 s' -> t1 = t2.
Proof.
  unfold chain_entry. destruct t1, t2; simpl; intros H; try reflexivity; discriminate H.
Qed.

Lemma spec_chain_flags s env s' env' :
  (forall tag, has_api_key s' env' tag = has_api_key s env tag) ->
  (forall tag, configured_model_name tag s' = configured_model_name tag s) ->
  spec_fallback_chain s' env' = spec_fallback_chain s env.
Proof.
  intros Hflags Hnames.
  pose proof (Hnames openai) as N1. pose proof (Hnames anthropic) as N2.
  pose proof (Hnames google) as N3. pose proof (Hnames openrouter) as N4.
  simpl in N1, N2, N3, N4.
  unfold spec_fallback_chain, priority_order. cbn. rewrite !Hflags.
  destruct (has_api_key s env openai), (has_api_key s env anthropic),
    (has_api_key s env google), (has_api_key s env openrouter);
    simpl; rewrite ?N1, ?N2, ?N3, ?N4; reflexivity.
Qed.

Lemma spec_chain_entries s env :
  spec_fallback_chain s env =
  map (fun tag => chain_entry tag s)
      (filter (fun tag => has_api_key s env tag = true) priority_order).
Proof. reflexivity. Qed.

Lemma In_fallback_models s env tag :
  In (chain_entry tag s) (fallback_models_of s env) <-> has_api_key s env tag = true.
Proof.
  rewrite fallback_models_refine, spec_chain_entries, in_map_iff. split.
  - intros (t & Heq & Hin). apply chain_entry_inj in Heq. subst t.
    apply list_elem_of_In, list_elem_of_filter in Hin. apply Hin.
  - intros Hk. exists tag. split; [reflexivity |].
    apply list_elem_of_In, list_elem_of_filter. split; [exact Hk |].
    apply list_elem_of_In. unfold priority_order. destruct tag; simpl; auto.
Qed.

Lemma NoDup_map_injective {A B} (f : A -> B) (l : list A) :
  (forall x y, f x = f y -> x = y) -> NoDup l -> NoDup (map f l).
Proof.
  intros Hinj Hl. induction Hl as [| x l Hx Hl IH]; simpl; constructor.
  - rewrite list_elem_of_In, in_map_iff. intros (y & Hy & Hin).
    apply Hinj in Hy. subst y. apply Hx, list_elem_of_In. exact Hin.
  - exact IH.
Qed.

(** On the fallback path [get_llm_model] makes one SDK call, [FallbackModel]
    on the chain of strings, and passes it no key and no base URL. Settings
    that agree on the model names and on which providers have a key therefore
    give, in the same environment, the same call, the same trace and the same
    outcome: a key held in the settings decides whether its provider is
    listed and is otherwise unused. *)
Theorem fallback_call_ignores_settings_keys ext s s' env evs primary rest :
  fallback_models_of s env = primary :: rest ->
  (forall tag, has_api_key s' env tag = has_api_key s env tag) ->
  (forall tag, configured_model_name tag s' = configured_model_name tag s) ->
  events (fst (get_llm_model ext (Some "fallback")
                 {| settings := Some s; environ := env; events := evs |})) =
  (evs ++ [Construct (OModel (FallbackModel primary rest env))])%list /\
  snd (get_llm_model ext (Some "fallback")
         {| settings := Some s'; environ := env; events := evs |}) =
  snd (get_llm_model ext (Some "fallback")
         {| settings := Some s; environ := env; events := evs |}) /\
  events (fst (get_llm_model ext (Some "fallback")
                 {| settings := Some s'; environ := env; events := evs |})) =
  events (fst (get_llm_model ext (Some "fallback")
                 {| settings := Some s; environ := env; events := evs |})).
Proof.
  intros Hchain Hflags Hnames.
  assert (Hchain' : fallback_models_of s' env = primary :: rest).
  { rewrite fallback_models_refine, (spec_chain_flags s env s' env Hflags Hnames),
      <- fallback_models_refine. exact Hchain. }
  rewrite (get_llm_model_fallback ext (Some "fallback")
             {| settings := Some s; environ := env; events := evs |} s eq_refl eq_refl),
    (get_llm_model_fallback ext (Some "fallback")
       {| settings := Some s'; environ := env; events := evs |} s' eq_refl eq_refl).
  simpl. rewrite Hchain, Hchain'. run_exec.
  destruct (sdk_raises ext (OModel (FallbackModel primary rest env)));
    repeat split; reflexivity.
Qed.

Lemma fallback_call_ignores_settings_keys_witness :
  snd (get_llm_model ext_env_keys (Some "fallback")
         {| settings := Some anthropic_settings;
            environ := {["ANTHROPIC_API_KEY" := "env-key"]}; events := [] |}) =
  snd (get_llm_model ext_env_keys (Some "fallback")
         {| settings := Some default_settings;
            environ := {["ANTHROPIC_API_KEY" := "env-key"]}; events := [] |}).
Proof.
  refine (proj1 (proj2 (fallback_call_ignores_settings_keys ext_env_keys
    default_settings anthropic_settings {["ANTHROPIC_API_KEY" := "env-key"]} []
    "anthropic:claude-3-5-sonnet-latest" [] eq_refl _ _))).
  - intros tag. destruct tag; reflexivity.
  - intros tag. destruct tag; reflexivity.
Defined.

(** The fallback chain lists a provider exactly when that provider's own
    factory finds a key, that is when the factory does not fail with its
    missing-key error: the chain and the factories apply the same rule. *)
Theorem fallback_chain_agrees_with_factories ext tag w s :
  loaded_settings ext w = Some s ->
  (In (chain_entry tag s) (fallback_models_of s (environ w)) <->
   snd (factory ext tag w) <> Raise (init_failed tag s (key_not_found tag s))).
Proof.
  intros Hs. rewrite In_fallback_models.
  destruct (has_api_key s (environ w) tag) eqn:Hk.
  - split; [| reflexivity]. intros _.
    rewrite (factory_run ext tag w s Hs Hk).
    destruct (run_constructions ext (objects_of (built_handle tag s (environ w))))
      as [evs [what |]]; simpl; [| discriminate].
    destruct tag; simpl; discriminate.
  - split; [discriminate |]. intros H. exfalso. apply H.
    apply factory_no_key; assumption.
Qed.

Lemma fallback_chain_agrees_with_factories_witness :
  In "google-gla:gemini-2.5-pro"
    (fallback_models_of default_settings {["GEMINI_API_KEY" := "test-key"]}).
Proof.
  change (In (chain_entry google default_settings)
            (fallback_models_of default_settings
               (environ (world_of default_settings {["GEMINI_API_KEY" := "test-key"]})))).
  apply (proj2 (fallback_chain_agrees_with_factories ext_ok google
                  (world_of default_settings {["GEMINI_API_KEY" := "test-key"]})
                  default_settings eq_refl)).
  vm_compute. discriminate.
Defined.

(** The chain never names a provider twice and never has more than four
    entries. *)
Theorem fallback_chain_no_duplicates s env :
  NoDup (fallback_models_of s env) /\ (length (fallback_models_of s env) <= 4)%nat.
Proof.
  rewrite fallback_models_refine, spec_chain_entries. split.
  - apply NoDup_map_injective.
    + intros t1 t2 H. exact (chain_entry_inj t1 t2 s s H).
    + apply NoDup_filter. unfold priority_order.
      repeat (constructor; [rewrite list_elem_of_In; simpl; intuition discriminate |]).
      constructor.
  - rewrite length_map.
    exact (length_filter (fun tag => has_api_key s env tag = true) priority_order).
Qed.

(** ** What [get_llm_model] can raise *)

Lemma name_cases name :
  (exists tag, startswith name (prefix_of tag) = true) \/ name = "fallback" \/
  unrecognized name.
Proof.
  destruct (startswith name "openai:") eqn:E1; [left; exists openai; exact E1 |].
  destruct (startswith name "anthropic:") eqn:E2; [left; exists anthropic; exact E2 |].
  destruct (startswith name "gemini:") eqn:E3; [left; exists google; exact E3 |].
  destruct (startswith name "openrouter:") eqn:E4; [left; exists openrouter; exact E4 |].
  destruct (String.eqb_spec name "fallback") as [E5 | E5]; [right; left; exact E5 |].
  right; right. repeat split; assumption.
Qed.

Lemma factory_raise_wrapped ext tag w s e :
  loaded_settings ext w = Some s ->
  snd (factory ext tag w) = Raise e ->
  exists cause, e = init_failed tag s cause.
Proof.
  intros Hs. destruct (has_api_key s (environ w) tag) eqn:Hk.
  - rewrite (factory_run ext tag w s Hs Hk).
    destruct (run_constructions ext (objects_of (built_handle tag s (environ w))))
      as [evs [what |]]; simpl; [| discriminate].
    intros [= <-]. eexists. reflexivity.
  - rewrite (factory_no_key_run ext tag w s Hs Hk). simpl.
    intros [= <-]. eexists. reflexivity.
Qed.

Lemma default_path_run ext name w :
  default_path ext name w =
  get_openai_model ext
    (with_events w [Log WARNING ("Unknown model name '" ++ name ++ "', defaulting to OpenAI")]).
Proof. reflexivity. Qed.

(** With the settings loaded, [get_llm_model] raises one of three things: a
    factory's [AIProviderException] (prefixed and unrecognised identifiers),
    the [ConfigurationException] of the fallback branch when no provider has a
    key, or, also on the fallback branch only, the exception of the
    [FallbackModel] constructor itself, which no handler wraps. *)
Theorem get_llm_model_error_kinds ext model_name w s e :
  loaded_settings ext w = Some s ->
  snd (get_llm_model ext model_name w) = Raise e ->
  (exists tag cause, e = init_failed tag s cause) \/
  (py_or_str model_name (ai_model s) = "fallback" /\
   ((forall tag, has_api_key s (environ w) tag = false) /\
    e = ConfigurationException "No LLM providers configured for fallback model"
          "ai_model" [("requested_model", "fallback")]
    \/
    exists primary rest what,
      fallback_models_of s (environ w) = primary :: rest /\
      sdk_raises ext (OModel (FallbackModel primary rest (environ w))) = Some what /\
      e = ExternalError what)).
Proof.
  intros Hs.
  destruct (name_cases (py_or_str model_name (ai_model s))) as [[tag Hp] | [Hn | Hu]].
  - rewrite (get_llm_model_prefixed ext tag model_name w s Hs Hp). intros He.
    left. exists tag. exact (factory_raise_wrapped ext tag w s e Hs He).
  - rewrite (get_llm_model_fallback ext model_name w s Hs Hn). intros H.
    right. split; [exact Hn |].
    destruct (fallback_models_of s (environ w)) as [| p rest] eqn:Hchain.
    + simpl in H. injection H as <-. left. split; [| reflexivity].
      intros tag. destruct (has_api_key s (environ w) tag) eqn:Hk; [| reflexivity].
      apply In_fallback_models in Hk. rewrite Hchain in Hk. destruct Hk.
    + rewrite new_model_outcome in H.
      destruct (sdk_raises ext (OModel (FallbackModel p rest (environ w)))) as [what |] eqn:Hsdk;
        [| discriminate].
      injection H as <-. right. exists p, rest, what. auto.
  - rewrite (get_llm_model_unrecognized ext model_name w s Hs Hu), default_path_run.
    intros He. left. exists openai.
    apply (factory_raise_wrapped ext openai _ s e) in He; [exact He | reflexivity].
Qed.

Lemma get_llm_model_error_kinds_witness :
  (exists tag cause,
     ExternalError "unknown model" = init_failed tag default_settings cause) \/
  (py_or_str (Some "fallback") (ai_model default_settings) = "fallback" /\
   ((forall tag, has_api_key default_settings {["OPENAI_API_KEY" := "test-key"]} tag = false) /\
    ExternalError "unknown model" =
    ConfigurationException "No LLM providers configured for fallback model"
      "ai_model" [("requested_model", "fallback")]
    \/
    exists primary rest what,
      fallback_models_of default_settings {["OPENAI_API_KEY" := "test-key"]}
      = primary :: rest /\
      sdk_raises
        ext_no_fallback
        (OModel (FallbackModel primary rest {["OPENAI_API_KEY" := "test-key"]})) = Some what /\
      ExternalError "unknown model" = ExternalError what)).
Proof.
  refine (get_llm_model_error_kinds
            ext_no_fallback
            (Some "fallback")
            (world_of default_settings {["OPENAI_API_KEY" := "test-key"]})
            default_settings (ExternalError "unknown model") eq_refl _).
  vm_compute. reflexivity.
Defined.

(** ** Prefixed identifiers *)

(** For an identifier with one of the four prefixes (given, or taken from
    [settings.ai_model]), [get_llm_model] is the call of that provider's
    factory and nothing more: same outcome, same trace, same final world. At
    most one prefix can match, so the order of the tests plays no part. *)
Theorem prefixed_resolution_is_the_factory ext tag model_name w s :
  loaded_settings ext w = Some s ->
  startswith (py_or_str model_name (ai_model s)) (prefix_of tag) = true ->
  get_llm_model ext model_name w = factory ext tag w /\
  (forall tag', startswith (py_or_str model_name (ai_model s)) (prefix_of tag') = true ->
                tag' = tag) /\
  py_or_str model_name (ai_model s) <> "fallback".
Proof.
  intros Hs Hp. split; [apply get_llm_model_prefixed with (s := s); assumption |].
  destruct (startswith_split _ _ Hp) as [r Hr]. rewrite Hr. split.
  - intros tag'. destruct tag, tag'; simpl; intros H; try reflexivity; discriminate H.
  - destruct tag; simpl; discriminate.
Qed.

Lemma prefixed_resolution_is_the_factory_witness :
  get_llm_model ext_ok None (world_of anthropic_settings ∅) =
  get_anthropic_model ext_ok (world_of anthropic_settings ∅).
Proof.
  exact (proj1 (prefixed_resolution_is_the_factory ext_ok anthropic None
                  (world_of anthropic_settings ∅) anthropic_settings eq_refl eq_refl)).
Defined.

(** ** Identifiers with the prefix "google:" *)

(** "gemini:" is the only prefix that selects Google: every identifier that
    starts with "google:" is unrecognised, so the call logs the warning and
    runs the OpenAI factory; with no OpenAI key it fails with the OpenAI
    factory's error even when a Google key is configured. *)
Theorem google_prefix_defaults_to_openai ext r w s :
  loaded_settings ext w = Some s ->
  get_llm_model ext (Some ("google:" ++ r)) w =
  get_openai_model ext
    (with_events (with_settings w s)
       [Log WARNING ("Unknown model name 'google:" ++ r ++ "', defaulting to OpenAI")]) /\
  (has_api_key s (environ w) openai = false ->
   snd (get_llm_model ext (Some ("google:" ++ r)) w) =
   Raise (init_failed openai s (key_not_found openai s))).
Proof.
  intros Hs.
  assert (Hu : unrecognized (py_or_str (Some ("google:" ++ r)) (ai_model s))).
  { simpl. unfold unrecognized. repeat split; try reflexivity. discriminate. }
  assert (Hrun : get_llm_model ext (Some ("google:" ++ r)) w =
                 get_openai_model ext
                   (with_events (with_settings w s)
                      [Log WARNING ("Unknown model name 'google:" ++ r
                                    ++ "', defaulting to OpenAI")])).
  { rewrite (get_llm_model_unrecognized ext _ w s Hs Hu). reflexivity. }
  split; [exact Hrun |].
  intros Hk. rewrite Hrun.
  apply (factory_no_key ext openai); [reflexivity | exact Hk].
Qed.

Lemma google_prefix_defaults_to_openai_witness :
  snd (get_llm_model ext_ok (Some "google:gemini-pro")
         (world_of default_settings {["GOOGLE_API_KEY" := "test-key"]})) =
  Raise (AIProviderException "Failed to initialize OpenAI model" "openai" "gpt-4o"
           (ConfigurationException "OpenAI API key not found" "openai_api_key"
              [("model_name", "gpt-4o")])).
Proof.
  exact (proj2 (google_prefix_defaults_to_openai ext_ok "gemini-pro"
                  (world_of default_settings {["GOOGLE_API_KEY" := "test-key"]})
                  default_settings eq_refl) eq_refl).
Defined.

(** ** The validators of the settings *)

Lemma rstrip_repeat c n : rstrip c (repeat_char c n) = "".
Proof.
  induction n as [| n IH]; simpl; [reflexivity |].
  rewrite IH, Ascii.eqb_refl. reflexivity.
Qed.

Lemma rstrip_app_repeat c s n : rstrip c (s ++ repeat_char c n) = rstrip c s.
Proof.
  induction s as [| a s IH]; simpl.
  - apply rstrip_repeat.
  - rewrite IH. reflexivity.
Qed.

Lemma rstrip_decompose c s : exists n, s = rstrip c s ++ repeat_char c n.
Proof.
  induction s as [| a s [n IH]]; simpl.
  - exists 0%nat. reflexivity.
  - destruct (rstrip c s) as [| b r] eqn:E.
    + change (s = repeat_char c n) in IH.
      destruct (Ascii.eqb_spec a c) as [-> | Hne].
      * exists (S n). change (String c s = String c (repeat_char c n)).
        rewrite <- IH. reflexivity.
      * exists n. change (String a s = String a (repeat_char c n)).
        rewrite <- IH. reflexivity.
    + exists n. change (String a s = String a (String b r ++ repeat_char c n)).
      rewrite <- IH. reflexivity.
Qed.

Lemma rstrip_no_trailing c s : ends_with_char c (rstrip c s) = false.
Proof.
  induction s as [| a s IH]; simpl; [reflexivity |].
  destruct (rstrip c s) as [| b r] eqn:E.
  - destruct (Ascii.eqb a c) eqn:Ea; simpl; [reflexivity | exact Ea].
  - simpl in IH |- *. exact IH.
Qed.

Lemma rstrip_idempotent c s : rstrip c (rstrip c s) = rstrip c s.
Proof.
  destruct (rstrip_decompose c s) as [n Hn].
  rewrite Hn at 2. rewrite rstrip_app_repeat. reflexivity.
Qed.

(** [validate_gitlab_url] accepts exactly the values that start with
    "http://" or "https://"; what it returns is the value without its
    trailing slashes: it does not end with "/", the value is the result
    followed by slashes only, and validating the result again cannot change
    it. *)
Theorem validate_gitlab_url_strips v :
  (forall msg, validate_gitlab_url v = ValueError msg ->
     startswith v "http://" = false /\ startswith v "https://" = false) /\
  (forall r, validate_gitlab_url v = Valid r ->
     (startswith v "http://" = true \/ startswith v "https://" = true) /\
     ends_with_char "/" r = false /\
     (exists n, v = r ++ repeat_char "/" n) /\
     (forall r', validate_gitlab_url r = Valid r' -> r' = r)).
Proof.
  unfold validate_gitlab_url. split.
  - intros msg. destruct (startswith v "http://"), (startswith v "https://");
      simpl; intros H; try discriminate. auto.
  - intros r.
    destruct (startswith v "http://" || startswith v "https://") eqn:E; simpl;
      [| discriminate].
    intros [= <-]. repeat split.
    + apply orb_true_iff in E. exact E.
    + apply rstrip_no_trailing.
    + apply rstrip_decompose.
    + intros r'.
      destruct (startswith (rstrip "/" v) "http://"
                || startswith (rstrip "/" v) "https://"); simpl; [| discriminate].
      intros [= <-]. apply rstrip_idempotent.
Qed.

(** A URL made of the scheme and slashes only is accepted, and normalised to
    "http:" or "https:", a value the validator itself rejects. *)
Theorem validate_gitlab_url_scheme_only n :
  validate_gitlab_url ("http://" ++ repeat_char "/" n) = Valid "http:" /\
  validate_gitlab_url ("https://" ++ repeat_char "/" n) = Valid "https:" /\
  validate_gitlab_url "http:" =
  ValueError "GitLab URL must include protocol (http:// or https://)" /\
  validate_gitlab_url "https:" =
  ValueError "GitLab URL must include protocol (http:// or https://)".
Proof.
  assert (H1 : rstrip "/" ("http://" ++ repeat_char "/" n) = "http:").
  { change ("http://" ++ repeat_char "/" n)
      with ("http:" ++ repeat_char "/" (S (S n))).
    rewrite rstrip_app_repeat. reflexivity. }
  assert (H2 : rstrip "/" ("https://" ++ repeat_char "/" n) = "https:").
  { change ("https://" ++ repeat_char "/" n)
      with ("https:" ++ repeat_char "/" (S (S n))).
    rewrite rstrip_app_repeat. reflexivity. }
  unfold validate_gitlab_url. rewrite H1, H2.
  repeat split; try reflexivity; destruct n; reflexivity.
Qed.

(** [validate_origins] returns a non-empty list unchanged; for an empty list
    it returns the two localhost origins unless ENVIRONMENT is exactly
    "production". So the result is empty only for an empty list in
    production, and an unset or differently spelled ENVIRONMENT opens the
    localhost origins. *)
Theorem validate_origins_empty_iff (env : gmap string string) v :
  (validate_origins env v = [] <-> v = [] /\ env !! "ENVIRONMENT" = Some "production") /\
  (v <> [] -> validate_origins env v = v) /\
  (v = [] -> env !! "ENVIRONMENT" <> Some "production" ->
   validate_origins env v = ["http://localhost:3000"; "http://localhost:8000"]).
Proof.
  assert (Hprod : forall o : option string,
             String.eqb (default "development" o) "production" = true <->
             o = Some "production").
  { intros [e |]; simpl.
    - destruct (String.eqb_spec e "production") as [-> | Hne]; split; try reflexivity;
        try discriminate. intros [= ->]. contradiction.
    - split; discriminate. }
  unfold validate_origins, os_getenv.
  split; [split | split].
  - destruct v as [| x v]; [| discriminate].
    destruct (String.eqb (default "development" (env !! "ENVIRONMENT")) "production")
      eqn:E; simpl; [| discriminate].
    intros _. split; [reflexivity | apply Hprod; exact E].
  - intros [-> Henv]. apply Hprod in Henv. rewrite Henv. reflexivity.
  - intros Hne. destruct v; [contradiction | reflexivity].
  - intros -> Hne.
    destruct (String.eqb (default "development" (env !! "ENVIRONMENT")) "production")
      eqn:E; simpl; [| reflexivity].
    apply Hprod in E. contradiction.
Qed.
